(** * GemDa: the gemstone report dashboards, embedded and verified

    The repository holds three Python scripts over one catalogue export:
    [app.py] (first dashboard), [streamlit_app.py] (second dashboard) and
    [generate_report.py] (batch report).  This development embeds the
    row filter, the image-URL rewriting, the cascading sidebar filters,
    the numeric range widgets, the grid pagination, the price display and
    the fetcher, and proves the properties stated about them.

    Conventions of the embedding:
    - a Python [str] is a Rocq [string] holding its UTF-8 bytes;
      [str.lower] and [str.strip], which act on all of Unicode, are
      fields of [Builtins], fixed on ASCII text by its laws;
    - a pandas cell is text, a number or missing ([NaN]/[None]); numbers
      are rationals, so that only comparison and copying are used on them;
    - a data frame is its column index together with its rows in order,
      each row a finite map from column name to cell;
    - Streamlit's [session_state] is a finite map from key to value;
    - a raised Python exception is the [Raise] outcome of [result]. *)

From Stdlib Require Import ZArith QArith Lqa String Ascii List Bool.
From Stdlib Require Import Sorting.Permutation Sorting.Sorted.
From Stdlib Require Import DecimalString DecimalN.
From stdpp Require Import gmap strings list fin_maps.

Open Scope string_scope.

(** ** Python string operations *)

Module PyStr.

(** The character operations of this module are the ASCII ones.  On
    text of the ASCII range they are [str.isspace], [str.lower] and
    [str.strip]; what Python does on other text is a field of
    [Builtins] below. *)

(** [s.isascii()]: every byte below 128. *)
Fixpoint is_ascii (s : string) : bool :=
  match s with
  | EmptyString => true
  | String c s' => (nat_of_ascii c <? 128)%nat && is_ascii s'
  end.

(** [c.isspace()] on the ASCII range: tab, line feed, vertical tab,
    form feed, carriage return, the four separators 0x1c-0x1f, space. *)
Definition is_space (c : ascii) : bool :=
  let n := nat_of_ascii c in
  ((9 <=? n)%nat && (n <=? 13)%nat)
  || ((28 <=? n)%nat && (n <=? 31)%nat)
  || (n =? 32)%nat.

Definition lower_char (c : ascii) : ascii :=
  let n := nat_of_ascii c in
  if ((65 <=? n)%nat && (n <=? 90)%nat) then ascii_of_nat (n + 32) else c.

(** [s.lower()] of ASCII text; on any text, the folding of the letters
    A to Z alone. *)
Fixpoint ascii_lower (s : string) : string :=
  match s with
  | EmptyString => EmptyString
  | String c s' => String (lower_char c) (ascii_lower s')
  end.

(** [s.lstrip()] of ASCII text *)
Fixpoint ascii_lstrip (s : string) : string :=
  match s with
  | EmptyString => EmptyString
  | String c s' => if is_space c then ascii_lstrip s' else s
  end.

(** [s.rstrip()] of ASCII text *)
Fixpoint ascii_rstrip (s : string) : string :=
  match s with
  | EmptyString => EmptyString
  | String c s' =>
      match ascii_rstrip s' with
      | EmptyString => if is_space c then EmptyString else String c EmptyString
      | t => String c t
      end
  end.

(** [s.strip()] of ASCII text *)
Definition ascii_strip (s : string) : string := ascii_rstrip (ascii_lstrip s).

(** [s.lstrip(c)] for a one-character argument *)
Fixpoint lstrip_char (ch : ascii) (s : string) : string :=
  match s with
  | EmptyString => EmptyString
  | String c s' => if Ascii.eqb c ch then lstrip_char ch s' else s
  end.

(** [s.split(sep)] for a one-character separator: never empty. *)
Fixpoint split (sep : ascii) (s : string) : list string :=
  match s with
  | EmptyString => [EmptyString]
  | String c s' =>
      if Ascii.eqb c sep then EmptyString :: split sep s'
      else match split sep s' with
           | h :: t => String c h :: t
           | [] => [String c EmptyString]
           end
  end.

(** [l[-1]] on the result of a split *)
Definition last_item (l : list string) : string := List.last l EmptyString.

(** [s.startswith(p)] *)
Definition startswith (p s : string) : bool := String.prefix p s.

(** [p in s], which is what [Series.str.contains(p)] computes for a
    pattern without regular-expression metacharacters. *)
Fixpoint contains (p s : string) : bool :=
  String.prefix p s
  || match s with
     | EmptyString => false
     | String _ s' => contains p s'
     end.

(** The same search under [re.IGNORECASE], for a pattern of ASCII
    letters none of which has a case variant outside ASCII (as none of
    p, e, n, d, a, t has): a byte of the text matches a letter of the
    pattern exactly when it is that letter in either case. *)
Definition contains_nocase (p s : string) : bool :=
  contains (ascii_lower p) (ascii_lower s).

Definition char (c : ascii) : string := String c EmptyString.

(** [s[i]], read where the index is known to be in range; the empty
    string stands for the [IndexError] outside it. *)
Definition item (s : string) (i : nat) : string :=
  match String.get i s with
  | Some c => char c
  | None => EmptyString
  end.

End PyStr.

(** ** Cells, numerals and outcomes *)

(** A pandas cell. *)
Inductive cell : Type :=
| CStr (s : string)
| CNum (q : Q)
| CNaN.

(** [pd.isna(x)] *)
Definition isna (c : cell) : bool :=
  match c with CNaN => true | _ => false end.

(** [x == v] between a cell and a Python string *)
Definition eq_text (c : cell) (v : string) : bool :=
  match c with CStr s => String.eqb s v | _ => false end.

(** What the scripts take from Python and pandas.  The two conversions
    between text and floats: [float(s)] / [pd.to_numeric] on a text cell
    ([None] when the text is not a number) and [str(x)] of a float,
    which depends on the value of the float alone.  The two Unicode
    operations on text, [s.lower()] and [s.strip()]: they are left
    open, with what they do on ASCII text as their laws. *)
Class Builtins : Type := {
  parse_float : string -> option Q;
  float_str : Q -> string;
  float_str_proper : forall p q : Q, (p == q)%Q -> float_str p = float_str q;
  py_lower : string -> string;
  py_strip : string -> string;
  py_lower_ascii : forall s,
    PyStr.is_ascii s = true -> py_lower s = PyStr.ascii_lower s;
  py_strip_ascii : forall s,
    PyStr.is_ascii s = true -> py_strip s = PyStr.ascii_strip s
}.

(** Python exceptions that the embedded code can raise. *)
Inductive exn : Type :=
| KeyError (key : string)
| TypeError
| AttributeError
| HTTPError (status : Z)
| ConnectionError
| ParserError
| RuntimeError (status : Z).

Inductive result (A : Type) : Type :=
| Ok (a : A)
| Raise (e : exn).
Arguments Ok {A} a.
Arguments Raise {A} e.

#[global] Instance result_ret : MRet result := fun A a => Ok a.

#[global] Instance result_bind : MBind result := fun A B k m =>
  match m with
  | Ok a => k a
  | Raise e => Raise e
  end.

(** ** Image URL reconstruction *)

Definition CDN_BASE : string :=
  "https://imgcdn1.gempundit.com/media/catalog/product".

Section ImageUrl.
Context `{Builtins}.

(** [str(x)] of a cell value *)
Definition py_str (c : cell) : string :=
  match c with
  | CStr s => s
  | CNum q => float_str q
  | CNaN => "nan"
  end.

(** The value of [s] in [get_magento_url] when its last [if] is
    reached: stripped, last segment, lower-cased, prefixed. *)
Definition normalized_filename (img_name : cell) : string :=
  let full_str := py_strip (py_str img_name) in
  let filename := PyStr.last_item (PyStr.split "/" full_str) in
  let s := py_lower filename in
  if negb (PyStr.startswith "gp" s) then "gp" ++ s else s.

(** [get_magento_url] of app.py and streamlit_app.py (the two copies
    are identical). *)
Definition get_magento_url (img_name : cell) : string :=
  if isna img_name || eq_text img_name ""
  then ""
  else
    let s := normalized_filename img_name in
    if (2 <=? String.length s)%nat
    then CDN_BASE ++ "/" ++ PyStr.item s 0 ++ "/" ++ PyStr.item s 1 ++ "/" ++ s
    else CDN_BASE ++ "/" ++ s.

(** The reconstruction as the specification words it, on a stored image
    reference.  Steps 1 to 4: last path segment, lower-case, brand
    prefix, two-level directory. *)
Definition image_url_steps (ref : string) : string :=
  let seg := PyStr.last_item (PyStr.split "/" ref) in
  let low := py_lower seg in
  let name := if PyStr.startswith "gp" low then low else "gp" ++ low in
  if (2 <=? String.length name)%nat
  then CDN_BASE ++ "/" ++ PyStr.item name 0 ++ "/" ++ PyStr.item name 1
       ++ "/" ++ name
  else CDN_BASE ++ "/" ++ name.

(** Step 5 in front of them: empty input gives the empty string. *)
Definition image_url_spec (ref : string) : string :=
  if String.eqb ref "" then "" else image_url_steps ref.

End ImageUrl.

(** ** Data frames *)

Definition Qlt_bool (a b : Q) : bool := negb (Qle_bool b a).

Record DataFrame : Type := {
  columns : list string;
  rows : list (gmap string cell)
}.

(** [pd.DataFrame()] *)
Definition empty_frame : DataFrame := {| columns := []; rows := [] |}.


(** [col in df.columns] *)
Definition has_col (col : string) (df : DataFrame) : bool :=
  bool_decide (col ∈ columns df).

(** The cell of a row under a column of its frame. *)
Definition at_col (col : string) (r : gmap string cell) : cell :=
  default CNaN (r !! col).

(** [df[col]]: the series of a column, [KeyError] when absent. *)
Definition series (col : string) (df : DataFrame) : result (list cell) :=
  if has_col col df then Ok (map (at_col col) (rows df))
  else Raise (KeyError col).

(** [df[col] = f(df[col])] for an element-wise [f], on a column that exists. *)
Definition map_col (col : string) (f : cell -> cell) (df : DataFrame)
  : DataFrame :=
  {| columns := columns df;
     rows := map (fun r => <[col := f (at_col col r)]> r) (rows df) |}.

(** [df[mask]] for a mask computed row by row. *)
Definition select (mask : gmap string cell -> bool) (df : DataFrame)
  : DataFrame :=
  {| columns := columns df; rows := List.filter mask (rows df) |}.

(** ** Cleaner / filter *)

Section Cleaner.
Context `{Builtins}.

(** [pd.to_numeric(x, errors="coerce")], cell by cell *)
Definition to_numeric (c : cell) : cell :=
  match c with
  | CStr s => match parse_float s with
              | Some q => CNum q
              | None => CNaN
              end
  | _ => c
  end.

(** The six element-wise tests of the base filter. *)

(** [df["attribute_set_id"] == "Gemstones"] *)
Definition is_gemstones (r : gmap string cell) : bool :=
  match at_col "attribute_set_id" r with
  | CStr s => String.eqb s "Gemstones"
  | _ => false
  end.

(** [df["sku"].astype(str).str.contains("GP", na=False)] *)
Definition sku_has_GP (r : gmap string cell) : bool :=
  PyStr.contains "GP" (py_str (at_col "sku" r)).

(** [df["qty"] > 0]; a comparison with [NaN] is false *)
Definition qty_positive (r : gmap string cell) : bool :=
  match at_col "qty" r with
  | CNum q => Qlt_bool 0 q
  | _ => false
  end.

(** [df["is_in_stock"] == 1] *)
Definition in_stock (r : gmap string cell) : bool :=
  match at_col "is_in_stock" r with
  | CNum q => Qeq_bool q 1
  | _ => false
  end.

(** [~df["product_type"].fillna("").str.contains("pendant", case=False,
    na=False)]: a number in a text column has no text, pandas answers
    [NaN] for it and [na=False] turns that into [False]. *)
Definition not_pendant (r : gmap string cell) : bool :=
  negb match at_col "product_type" r with
       | CStr s => PyStr.contains_nocase "pendant" s
       | CNaN => PyStr.contains_nocase "pendant" ""
       | CNum _ => false
       end.

(** [df["price"] > 0] *)
Definition price_positive (r : gmap string cell) : bool :=
  match at_col "price" r with
  | CNum q => Qlt_bool 0 q
  | _ => false
  end.

Definition base_mask (r : gmap string cell) : bool :=
  is_gemstones r && sku_has_GP r && qty_positive r && in_stock r
  && not_pendant r && price_positive r.

Definition is_text (c : cell) : bool :=
  match c with CStr _ => true | _ => false end.

Definition is_number (c : cell) : bool :=
  match c with CNum _ => true | _ => false end.

(** The [.str] accessor refuses a column of numeric dtype: after
    [fillna("")] that is a non-empty column holding numbers only. *)
Definition str_accessor (col : list cell) : result unit :=
  match col with
  | [] => Ok tt
  | _ => if forallb is_number col then Raise AttributeError else Ok tt
  end.

(** [series > 0] raises on a text cell. *)
Definition comparable (col : list cell) : result unit :=
  if existsb is_text col then Raise TypeError else Ok tt.

(** The boolean-indexing expression shared by the three scripts:
    operands are evaluated left to right, whole columns at a time. *)
Definition base_filter (df : DataFrame) : result DataFrame :=
  _ ← series "attribute_set_id" df;
  _ ← series "sku" df;
  _ ← series "qty" df;
  _ ← series "is_in_stock" df;
  pt ← series "product_type" df;
  _ ← str_accessor pt;
  pr ← series "price" df;
  _ ← comparable pr;
  Ok (select base_mask df).

(** The formatting applied to the filtered copy. *)
Definition numeric_cols : list string :=
  ["carat_weight"; "weight_ratti"; "price"].

Definition format_numeric (df : DataFrame) : DataFrame :=
  fold_left
    (fun d col => if has_col col d then map_col col to_numeric d else d)
    numeric_cols df.

(** [fillna("").astype(str)], then the product-page prefix in front of
    [str.lstrip("/")] *)
Definition product_url (c : cell) : cell :=
  let key := match c with CNaN => "" | _ => py_str c end in
  CStr ("https://www.gempundit.com/products/" ++ PyStr.lstrip_char "/" key).

Definition format_url_key (df : DataFrame) : DataFrame :=
  if has_col "url_key" df then map_col "url_key" product_url df else df.

Definition format_image (df : DataFrame) : DataFrame :=
  if has_col "image" df
  then map_col "image" (fun c => CStr (get_magento_url c)) df
  else df.

(** [process_dataframe(df)] of both dashboards.  The first two
    statements assign into the argument itself, so the function is
    given with the state in which it leaves that object: the pair is
    (what the call returns or raises, the argument afterwards).  The
    filtered frame is a [.copy()], later assignments stay in it. *)
Definition process_dataframe (df : DataFrame)
  : result DataFrame * DataFrame :=
  match series "qty" df with
  | Raise e => (Raise e, df)
  | Ok _ =>
      let df1 := map_col "qty" to_numeric df in
      match series "is_in_stock" df1 with
      | Raise e => (Raise e, df1)
      | Ok _ =>
          let df2 := map_col "is_in_stock" to_numeric df1 in
          (df_gemstone ← base_filter df2;
           Ok (format_image (format_url_key (format_numeric df_gemstone))),
           df2)
      end
  end.

(** The filter block of generate_report.py: the same two assignments
    and the same indexing expression at the top level of the script;
    [df_gemstone] is what the block leaves bound. *)
Definition report_filter_block (df : DataFrame)
  : result DataFrame * DataFrame :=
  match series "qty" df with
  | Raise e => (Raise e, df)
  | Ok _ =>
      let df1 := map_col "qty" to_numeric df in
      match series "is_in_stock" df1 with
      | Raise e => (Raise e, df1)
      | Ok _ =>
          let df2 := map_col "is_in_stock" to_numeric df1 in
          (base_filter df2, df2)
      end
  end.

End Cleaner.

(** *** Row-wise reading of the cleaner

    The cleaner works on whole columns.  To say which row of the result
    a raw row becomes, and what holds of it, the same steps are read
    here on a single row. *)

Section CleanerRows.
Context `{Builtins}.

(** The two in-place coercions, on one row. *)
Definition coerce_row (r : gmap string cell) : gmap string cell :=
  let r1 := <["qty" := to_numeric (at_col "qty" r)]> r in
  <["is_in_stock" := to_numeric (at_col "is_in_stock" r1)]> r1.

Definition on_col (cols : list string) (col : string) (f : cell -> cell)
    (r : gmap string cell) : gmap string cell :=
  if bool_decide (col ∈ cols) then <[col := f (at_col col r)]> r else r.

(** The formatting of the filtered copy, on one row of a frame with
    column index [cols]. *)
Definition format_row (cols : list string) (r : gmap string cell)
  : gmap string cell :=
  on_col cols "image" (fun c => CStr (get_magento_url c))
    (on_col cols "url_key" product_url
       (on_col cols "price" to_numeric
          (on_col cols "weight_ratti" to_numeric
             (on_col cols "carat_weight" to_numeric r)))).

(** The six predicates of the filtered table, as the specification
    lists them. *)
Record six_predicates (r : gmap string cell) : Prop := {
  category_is_gemstones : at_col "attribute_set_id" r = CStr "Gemstones";
  sku_contains_GP : PyStr.contains "GP" (py_str (at_col "sku" r)) = true;
  qty_above_zero : exists q, at_col "qty" r = CNum q /\ (0 < q)%Q;
  in_stock_is_one : exists q, at_col "is_in_stock" r = CNum q /\ (q == 1)%Q;
  no_pendant : forall s, at_col "product_type" r = CStr s ->
                         PyStr.contains_nocase "pendant" s = false;
  price_above_zero : exists q, at_col "price" r = CNum q /\ (0 < q)%Q
}.

End CleanerRows.

(** ** Filter-state controller: cascading multiselects *)

(** The order of [sorted] on strings. *)
Definition leb_order (a b : string) : Prop := String.leb a b = true.

(** [sorted(...)] on strings: insertion into an ordered list. *)
Fixpoint insert_sorted (x : string) (l : list string) : list string :=
  match l with
  | [] => [x]
  | y :: l' => if String.leb x y then x :: l else y :: insert_sorted x l'
  end.

Definition sorted (l : list string) : list string :=
  fold_right insert_sorted [] l.

Definition cell_eqb (a b : cell) : bool :=
  match a, b with
  | CStr s, CStr t => String.eqb s t
  | CNum p, CNum q => Qeq_bool p q
  | CNaN, CNaN => true
  | _, _ => false
  end.

(** [Series.unique()]: first occurrences, in order. *)
Definition unique_by {A : Type} (eqb : A -> A -> bool) (l : list A) : list A :=
  fold_left
    (fun acc c => if existsb (eqb c) acc then acc else (acc ++ [c])%list)
    l [].

(** [Series.dropna()] *)
Definition dropna (l : list cell) : list cell :=
  List.filter (fun c => negb (isna c)) l.

(** [Series.fillna(s)] *)
Definition fillna (s : string) (c : cell) : cell :=
  match c with CNaN => CStr s | _ => c end.

(** Step 4 of the formatting in generate_report.py, on one cell:
    [fillna("").astype(str)], then the base address in front of
    [str.lstrip("/")], with nothing between the two. *)
Definition report_image `{Builtins} (c : cell) : cell :=
  CStr (CDN_BASE ++ PyStr.lstrip_char "/" (py_str (fillna "" c))).

(** [st.sidebar.multiselect(label, options, key=k)]: the widget answers
    with the selection the user holds under its key, nothing selected
    when the key was never touched. *)
Definition multiselect (widgets : gmap string (list string)) (key : string)
  : list string :=
  default [] (widgets !! key).

(** The loop state: the frame narrowed so far, the selections recorded,
    and, per column, the option list that was handed to its widget. *)
Record cascade : Type := {
  current_df : DataFrame;
  selected_filters : gmap string (list string);
  offered : gmap string (list string)
}.

Definition cascade_init (df_processed : DataFrame) : cascade :=
  {| current_df := df_processed; selected_filters := ∅; offered := ∅ |}.

Definition filter_order_app : list (string * string) :=
  [("gemstone", "Gemstone"); ("shape", "Shape"); ("cut", "Cut");
   ("treatment", "Treatment"); ("origin", "Origin"); ("color", "Color");
   ("dimension_type", "Dimension Type"); ("product_type", "Product Type");
   ("certification", "Certification")].

Definition filter_order_streamlit : list (string * string) :=
  [("gemstone", "Gemstone"); ("shape", "Shape"); ("cut", "Cut");
   ("treatment", "Treatment"); ("origin", "Origin"); ("j_colour", "Colour");
   ("dimension_type", "Dimension Type"); ("product_type", "Product Type");
   ("certification", "Certification")].

Section Cascade.
Context `{Builtins}.
Variable widgets : gmap string (list string).

(** The body of the loop has one shape in both dashboards; they
    differ in the option list they compute and in the row mask a
    selection stands for. *)
Definition cascade_step
    (options_for : string -> DataFrame -> list string)
    (keep : list string -> cell -> bool)
    (st : cascade) (entry : string * string) : cascade :=
  let col_name := fst entry in
  if has_col col_name (current_df st) then
    let options := options_for col_name (current_df st) in
    let val := multiselect widgets ("filter_" ++ col_name) in
    match val with
    | [] => {| current_df := current_df st;
               selected_filters := selected_filters st;
               offered := <[col_name := options]> (offered st) |}
    | _ => {| current_df :=
                select (fun r => keep val (at_col col_name r)) (current_df st);
              selected_filters := <[col_name := val]> (selected_filters st);
              offered := <[col_name := options]> (offered st) |}
    end
  else st.

(** app.py: options are the distinct present values, and a selection
    narrows with [isin]. *)
Definition options_app (col_name : string) (df : DataFrame) : list string :=
  sorted (map py_str
            (unique_by cell_eqb (dropna (map (at_col col_name) (rows df))))).

Definition isin (val : list string) (c : cell) : bool :=
  existsb (eq_text c) val.

Definition step_app : cascade -> string * string -> cascade :=
  cascade_step options_app isin.

(** streamlit_app.py: missing values are offered as the text "None",
    and the mask is accumulated value by value. *)
Definition options_streamlit (col_name : string) (df : DataFrame)
  : list string :=
  sorted (unique_by String.eqb
            (map (fun r => py_str (fillna "None" (at_col col_name r)))
                 (rows df))).

Definition mask_streamlit (val : list string) (c : cell) : bool :=
  fold_left
    (fun mask v =>
       if String.eqb v "None" then mask || (isna c || eq_text c "None")
       else mask || eq_text c v)
    val false.

Definition step_streamlit : cascade -> string * string -> cascade :=
  cascade_step options_streamlit mask_streamlit.

(** The [for col_name, label in filter_order] loop of each dashboard. *)
Definition cascade_app (df_processed : DataFrame) : cascade :=
  fold_left step_app filter_order_app (cascade_init df_processed).

Definition cascade_streamlit (df_processed : DataFrame) : cascade :=
  fold_left step_streamlit filter_order_streamlit (cascade_init df_processed).

End Cascade.

(** The option list a run handed to the widget of a column (nothing when
    the column has no widget). *)
Definition options_of (st : cascade) (col_name : string) : list string :=
  default [] (offered st !! col_name).

(** The options computed for a column grow with the rows of the frame. *)
Definition monotone_options
    (options_for : string -> DataFrame -> list string) : Prop :=
  forall col_name df df',
    incl (rows df) (rows df') ->
    incl (options_for col_name df) (options_for col_name df').

(** One run is narrower than another: same column index, fewer rows,
    fewer options under every column. *)
Definition narrower (st st' : cascade) : Prop :=
  columns (current_df st) = columns (current_df st')
  /\ incl (rows (current_df st)) (rows (current_df st'))
  /\ forall col_name, incl (options_of st col_name) (options_of st' col_name).

(** The widget state in which the selection of one filter is empty. *)
Definition clear_selection (col_name : string)
    (widgets : gmap string (list string)) : gmap string (list string) :=
  <["filter_" ++ col_name := []]> widgets.

(** ** Filter-state controller: numeric ranges *)

(** A value held in [st.session_state].  Floats are [option Q], [None]
    standing for [nan]; a range slider holds a pair. *)
Inductive value : Type :=
| VBool (b : bool)
| VInt (n : Z)
| VFloat (x : option Q)
| VRange (lo hi : option Q).

(** Float comparisons: every comparison with [nan] is false, [!=] is
    the negation of [==]. *)
Definition flt_eq (a b : option Q) : bool :=
  match a, b with
  | Some x, Some y => Qeq_bool x y
  | _, _ => false
  end.

Definition flt_gt (a b : option Q) : bool :=
  match a, b with
  | Some x, Some y => Qlt_bool y x
  | _, _ => false
  end.

Definition flt_le (a b : option Q) : bool :=
  match a, b with
  | Some x, Some y => Qle_bool x y
  | _, _ => false
  end.

(** [max(a, b)] and [min(a, b)] of Python: the first argument wins ties
    and failed comparisons. *)
Definition py_max (a b : option Q) : option Q := if flt_gt b a then b else a.
Definition py_min (a b : option Q) : option Q := if flt_gt a b then b else a.

(** [float(series.min())] and [float(series.max())]: missing cells are
    skipped, [nan] when nothing is left.  The range columns hold no text
    once [process_dataframe] has coerced them. *)
Definition series_min (l : list cell) : option Q :=
  fold_left
    (fun acc c =>
       match c, acc with
       | CNum q, Some m => Some (if Qlt_bool q m then q else m)
       | CNum q, None => Some q
       | _, _ => acc
       end) l None.

Definition series_max (l : list cell) : option Q :=
  fold_left
    (fun acc c =>
       match c, acc with
       | CNum q, Some m => Some (if Qlt_bool m q then q else m)
       | CNum q, None => Some q
       | _, _ => acc
       end) l None.

Definition column_values (col : string) (df : DataFrame) : list cell :=
  map (at_col col) (rows df).

(** What a range widget of a column was built with and what it selects. *)
Record range_widget : Type := {
  bounds : option Q * option Q;
  selection : option Q * option Q
}.

(** [st.number_input(..., value=v, key=k)]: the value held under the
    key, which is set to [v] when the widget is new. *)
Definition number_input (key : string) (v : option Q)
    (ss : gmap string value) : option Q * gmap string value :=
  match ss !! key with
  | Some (VFloat x) => (x, ss)
  | _ => (v, <[key := VFloat v]> ss)
  end.

Module App.

Definition range_cols : list string := ["carat_weight"; "price"; "weight_ratti"].

(** Lines 174-180: global bounds from [df_processed], with the guard
    for columns without a number. *)
Definition global_bounds (df_processed : DataFrame) (col : string)
  : option Q * option Q :=
  let min_global := series_min (column_values col df_processed) in
  let max_global := series_max (column_values col df_processed) in
  (match min_global with None => Some 0%Q | _ => min_global end,
   match max_global with None => Some 1%Q | _ => max_global end).

(** Lines 183-219 for one column: the body of the loop after the
    bounds.  Only [slider_<col>] is ever assigned by the script. *)
Definition range_block (df_processed : DataFrame) (col : string)
    (ss : gmap string value)
  : result (gmap string value * range_widget) :=
  let '(min_global, max_global) := global_bounds df_processed col in
  let key_slider := "slider_" ++ col in
  let ss1 := match ss !! key_slider with
             | None => <[key_slider := VRange min_global max_global]> ss
             | Some _ => ss
             end in
  match ss1 !! key_slider with
  | Some (VRange current_min current_max) =>
      let '(val_min, ss2) :=
        number_input ("input_min_" ++ col) current_min ss1 in
      let '(val_max, ss3) :=
        number_input ("input_max_" ++ col) current_max ss2 in
      let ss4 :=
        if negb (flt_eq val_min current_min) || negb (flt_eq val_max current_max)
        then
          let val_min := if flt_gt val_min val_max then val_max else val_min in
          <[key_slider := VRange val_min val_max]> ss3
        else ss3 in
      match ss4 !! key_slider with
      | Some (VRange lo hi) =>
          Ok (ss4, {| bounds := (min_global, max_global);
                      selection := (lo, hi) |})
      | _ => Raise TypeError
      end
  | _ => Raise TypeError
  end.

(** The [for col in range_cols] loop: [range_selections] in insertion
    order, each entry with the bounds its widgets were given. *)
Fixpoint range_loop (df_processed : DataFrame) (cols : list string)
    (ss : gmap string value)
  : result (gmap string value * list (string * range_widget)) :=
  match cols with
  | [] => Ok (ss, [])
  | col :: cols' =>
      if has_col col df_processed then
        '(ss1, w) ← range_block df_processed col ss;
        '(ss2, ws) ← range_loop df_processed cols' ss1;
        Ok (ss2, (col, w) :: ws)
      else range_loop df_processed cols' ss
  end.

(** A user edit of one of the three widgets of a column: Streamlit
    stores the new value under the widget key and runs the script. *)
Inductive edit : Type :=
| SlideTo (lo hi : Q)
| TypeMin (x : Q)
| TypeMax (x : Q).

Definition store_edit (col : string) (e : edit) (ss : gmap string value)
  : gmap string value :=
  match e with
  | SlideTo lo hi => <["slider_" ++ col := VRange (Some lo) (Some hi)]> ss
  | TypeMin x => <["input_min_" ++ col := VFloat (Some x)]> ss
  | TypeMax x => <["input_max_" ++ col := VFloat (Some x)]> ss
  end.

Definition on_edit (df_processed : DataFrame) (col : string) (e : edit)
    (ss : gmap string value)
  : result (gmap string value * range_widget) :=
  range_block df_processed col (store_edit col e ss).

End App.

Module Streamlit.

Definition numeric_filters : list (string * string) :=
  [("price", "Price (₹)"); ("carat_weight", "Carat Weight");
   ("weight_ratti", "Weight Ratti")].

(** [update_slider(key_prefix)]: slider to state. *)
Definition update_slider (key_prefix : string) (ss : gmap string value)
  : result (gmap string value) :=
  match ss !! ("slider_" ++ key_prefix) with
  | Some (VRange lo hi) =>
      Ok (<["max_" ++ key_prefix := VFloat hi]>
            (<["min_" ++ key_prefix := VFloat lo]> ss))
  | Some _ => Raise TypeError
  | None => Raise (KeyError ("slider_" ++ key_prefix))
  end.

(** The [try] body of [update_input]. *)
Definition update_input_body (key_prefix : string) (ss : gmap string value)
  : result (gmap string value) :=
  match ss !! ("min_" ++ key_prefix), ss !! ("max_" ++ key_prefix) with
  | None, _ => Raise (KeyError ("min_" ++ key_prefix))
  | _, None => Raise (KeyError ("max_" ++ key_prefix))
  | Some (VFloat new_min), Some (VFloat new_max) =>
      if flt_gt new_min new_max then
        Ok (<["slider_" ++ key_prefix := VRange new_max new_max]>
              (<["min_" ++ key_prefix := VFloat new_max]> ss))
      else
        Ok (<["slider_" ++ key_prefix := VRange new_min new_max]> ss)
  | Some _, Some _ => Raise TypeError
  end.

(** [update_input(key_prefix)]: inputs to state; [except Exception:
    pass] leaves the state as it was (every raising statement of the
    body precedes its first assignment). *)
Definition update_input (key_prefix : string) (ss : gmap string value)
  : gmap string value :=
  match update_input_body key_prefix ss with
  | Ok ss' => ss'
  | Raise _ => ss
  end.

(** Lines 303-308: bounds from [df_processed], widened when they
    coincide. *)
Definition data_bounds (df_processed : DataFrame) (col : string)
  : option Q * option Q :=
  let data_min := series_min (column_values col df_processed) in
  let data_max := series_max (column_values col df_processed) in
  if flt_eq data_min data_max
  then (Some 0%Q, py_max (Some 1%Q) data_max)
  else (data_min, data_max).

Definition init_key (key : string) (v : value) (ss : gmap string value)
  : gmap string value :=
  match ss !! key with None => <[key := v]> ss | Some _ => ss end.

(** Lines 313-377 for one column. *)
Definition range_block (df_processed : DataFrame) (col : string)
    (ss : gmap string value)
  : result (gmap string value * range_widget) :=
  let '(data_min, data_max) := data_bounds df_processed col in
  let ss1 := init_key ("min_" ++ col) (VFloat data_min) ss in
  let ss2 := init_key ("max_" ++ col) (VFloat data_max) ss1 in
  let ss3 := init_key ("slider_" ++ col) (VRange data_min data_max) ss2 in
  match ss3 !! ("min_" ++ col), ss3 !! ("max_" ++ col) with
  | Some (VFloat cur_min), Some (VFloat cur_max) =>
      let cur_min := py_max data_min (py_min cur_min data_max) in
      let cur_max := py_max data_min (py_min cur_max data_max) in
      let cur_min := if flt_gt cur_min cur_max then cur_max else cur_min in
      Ok (ss3, {| bounds := (data_min, data_max);
                  selection := (cur_min, cur_max) |})
  | _, _ => Raise TypeError
  end.

Fixpoint range_loop (df_processed : DataFrame) (cols : list (string * string))
    (ss : gmap string value)
  : result (gmap string value * list (string * range_widget)) :=
  match cols with
  | [] => Ok (ss, [])
  | (col, label) :: cols' =>
      if has_col col df_processed then
        '(ss1, w) ← range_block df_processed col ss;
        '(ss2, ws) ← range_loop df_processed cols' ss1;
        Ok (ss2, (col, w) :: ws)
      else range_loop df_processed cols' ss
  end.

(** A user edit: Streamlit stores the widget value under its key and
    calls the widget's [on_change] callback before the next run. *)
Inductive edit : Type :=
| SlideTo (lo hi : Q)
| TypeMin (x : Q)
| TypeMax (x : Q).

Definition on_edit (col : string) (e : edit) (ss : gmap string value)
  : result (gmap string value) :=
  match e with
  | SlideTo lo hi =>
      update_slider col (<["slider_" ++ col := VRange (Some lo) (Some hi)]> ss)
  | TypeMin x =>
      Ok (update_input col (<["min_" ++ col := VFloat (Some x)]> ss))
  | TypeMax x =>
      Ok (update_input col (<["max_" ++ col := VFloat (Some x)]> ss))
  end.

End Streamlit.

(** ** Final result: the range predicates over the narrowed frame *)

(** [(df[col] >= sel_min) & (df[col] <= sel_max)] on one cell *)
Definition in_range (sel : option Q * option Q) (c : cell) : bool :=
  match c with
  | CNum q => flt_le (fst sel) (Some q) && flt_le (Some q) (snd sel)
  | _ => false
  end.

(** [for col, (sel_min, sel_max) in range_selections.items()]: the
    comparison raises on a text cell. *)
Fixpoint apply_ranges (range_selections : list (string * (option Q * option Q)))
    (final_df : DataFrame) : result DataFrame :=
  match range_selections with
  | [] => Ok final_df
  | (col, sel) :: rest =>
      if has_col col final_df then
        if existsb (fun c => match c with CStr _ => true | _ => false end)
                   (column_values col final_df)
        then Raise TypeError
        else apply_ranges rest
               (select (fun r => in_range sel (at_col col r)) final_df)
      else apply_ranges rest final_df
  end.

(** ** The report of a run: filters, ranges, final frame *)

Definition selections (ws : list (string * range_widget))
  : list (string * (option Q * option Q)) :=
  map (fun cw => (fst cw, selection (snd cw))) ws.

Section Reports.
Context `{Builtins}.
Variable widgets : gmap string (list string).

(** app.py from the sidebar to [final_df]: the cascade gives
    [current_df], the range loop reads [df_processed], and the results
    section filters [current_df] by [range_selections]. *)
Definition app_report (ss : gmap string value) (df_processed : DataFrame)
  : result (DataFrame * list (string * range_widget)) :=
  let st := cascade_app widgets df_processed in
  '(_, ws) ← App.range_loop df_processed App.range_cols ss;
  final_df ← apply_ranges (selections ws) (current_df st);
  Ok (final_df, ws).

(** streamlit_app.py: the same, behind the check that a gemstone is
    selected ([None] is the warning followed by [st.stop()]). *)
Definition streamlit_report (ss : gmap string value) (df_processed : DataFrame)
  : result (option DataFrame * list (string * range_widget)) :=
  let st := cascade_streamlit widgets df_processed in
  '(_, ws) ← Streamlit.range_loop df_processed Streamlit.numeric_filters ss;
  match selected_filters st !! "gemstone" with
  | None | Some [] => Ok (None, ws)
  | Some _ =>
      final_df ← apply_ranges (selections ws) (current_df st);
      Ok (Some final_df, ws)
  end.

End Reports.

(** ** Renderer: grid pagination (streamlit_app.py) *)

Definition ITEMS_PER_PAGE : Z := 48.

(** [max(1, (total_items + ITEMS_PER_PAGE - 1) // ITEMS_PER_PAGE)] *)
Definition total_pages (total_items : Z) : Z :=
  Z.max 1 ((total_items + ITEMS_PER_PAGE - 1) / ITEMS_PER_PAGE)%Z.

(** [ceil(result_count / page_size)] as the specification writes it. *)
Definition ceil_div (n d : Z) : Z := (- ((- n) / d))%Z.

(** What the user did to start a run of the script. *)
Inductive click : Type :=
| NoClick          (* any other widget changed, or a plain rerun *)
| ClickApply
| ClickPrevious
| ClickNext.

(** [st.button(label, disabled=d)]: true in the run started by a click
    on it; a disabled button cannot be clicked. *)
Definition button (me : click) (disabled : bool) (c : click) : bool :=
  negb disabled
  && match me, c with
     | ClickApply, ClickApply
     | ClickPrevious, ClickPrevious
     | ClickNext, ClickNext => true
     | _, _ => false
     end.

(** How a run ends: at the end of the script or at [st.rerun()]. *)
Inductive ending : Type := Finished | Rerun.

(** Lines 382-385: the "Step 3: Apply Filters" button. *)
Definition apply_filters (c : click) (ss : gmap string value)
  : gmap string value * ending :=
  if button ClickApply false c
  then (<["current_page" := VInt 1]> (<["show_results" := VBool true]> ss), Rerun)
  else (ss, Finished).

(** [final_df.iloc[start_idx:end_idx]] *)
Definition page_slice {A : Type} (page : Z) (items : list A) : list A :=
  let start_idx := ((page - 1) * ITEMS_PER_PAGE)%Z in
  let end_idx := (start_idx + ITEMS_PER_PAGE)%Z in
  take (Z.to_nat end_idx - Z.to_nat start_idx) (drop (Z.to_nat start_idx) items).

(** Lines 482-553: the grid branch, from the page state to the two
    buttons.  [total_items] is [len(final_df)] of this run. *)
Definition grid_view (total_items : Z) (c : click) (ss : gmap string value)
  : result (gmap string value * ending) :=
  let ss1 := match ss !! "current_page" with
             | None => <["current_page" := VInt 1]> ss
             | Some _ => ss
             end in
  match ss1 !! "current_page" with
  | Some (VInt page) =>
      let ss2 := if (page >? total_pages total_items)%Z
                 then <["current_page" := VInt (total_pages total_items)]> ss1
                 else ss1 in
      match ss2 !! "current_page" with
      | Some (VInt current_page) =>
          if button ClickPrevious (current_page =? 1)%Z c
          then Ok (<["current_page" := VInt (current_page - 1)]> ss2, Rerun)
          else if button ClickNext (current_page =? total_pages total_items)%Z c
          then Ok (<["current_page" := VInt (current_page + 1)]> ss2, Rerun)
          else Ok (ss2, Finished)
      | _ => Raise TypeError
      end
  | _ => Raise TypeError
  end.

(** One run of the script, as far as the page state goes: the apply
    button, then the grid branch when results are shown in grid mode. *)
Definition run (grid_mode : bool) (total_items : Z) (c : click)
    (ss : gmap string value) : result (gmap string value * ending) :=
  match apply_filters c ss with
  | (ss1, Rerun) => Ok (ss1, Rerun)
  | (ss1, Finished) =>
      match ss1 !! "show_results" with
      | Some (VBool true) =>
          if grid_mode then grid_view total_items c ss1 else Ok (ss1, Finished)
      | _ => Ok (ss1, Finished)
      end
  end.

(** A user action and the rerun it may request: [st.rerun()] starts the
    script again with no button pressed. *)
Definition interaction (grid_mode : bool) (total_items : Z) (c : click)
    (ss : gmap string value) : result (gmap string value) :=
  '(ss1, e) ← run grid_mode total_items c ss;
  match e with
  | Finished => Ok ss1
  | Rerun => '(ss2, _) ← run grid_mode total_items NoClick ss1; Ok ss2
  end.

(** The page number held in the session. *)
Definition page_of (ss : gmap string value) : option Z :=
  match ss !! "current_page" with
  | Some (VInt p) => Some p
  | _ => None
  end.

(** ** Renderer: price display and sorting (streamlit_app.py) *)

(** Rounding of a non-negative rational to the nearest integer, ties to
    even: what the [.0f] format does to a float. *)
Definition round_half_even (q : Q) : Z :=
  let n := Qnum q in
  let d := Z.pos (Qden q) in
  let fl := (n / d)%Z in
  let r := (n mod d)%Z in
  match (2 * r ?= d)%Z with
  | Lt => fl
  | Gt => (fl + 1)%Z
  | Eq => if Z.even fl then fl else (fl + 1)%Z
  end.

(** Decimal digits of a natural number, and their reading. *)
Definition decimal (n : Z) : string :=
  NilEmpty.string_of_uint (N.to_uint (Z.to_N n)).

Definition read_decimal (s : string) : option Z :=
  match NilEmpty.uint_of_string s with
  | Some d => Some (Z.of_N (N.of_uint d))
  | None => None
  end.

(** The [,] option of the format: a comma before every group of three
    digits counted from the right. *)
Fixpoint insert_commas (s : string) : string :=
  match s with
  | EmptyString => EmptyString
  | String c s' =>
      String c
        (if (0 <? String.length s')%nat && (String.length s' mod 3 =? 0)%nat
         then "," ++ insert_commas s'
         else insert_commas s')
  end.

(** [f"{x:,.0f}"] for a float [x] *)
Definition format_comma_0f (q : Q) : string :=
  if Qlt_bool q 0
  then "-" ++ insert_commas (decimal (round_half_even (Qopp q)))
  else insert_commas (decimal (round_half_even q)).

(** What a comma-grouped integer looks like: one to three digits, then
    groups of a comma and three digits. *)
Definition is_digit (c : ascii) : bool :=
  let n := nat_of_ascii c in (48 <=? n)%nat && (n <=? 57)%nat.

Fixpoint digits_only (s : string) : bool :=
  match s with
  | EmptyString => true
  | String c s' => is_digit c && digits_only s'
  end.

Definition all_digits (s : string) : bool :=
  negb (String.eqb s "") && digits_only s.




Definition RUPEE : string := "₹".

Section Display.
Context `{Builtins}.

(** [format_price_display(val)].  [float(val)] raises on text that is
    no number and on [None]; the format raises on text; the bare
    [except] then returns [val] itself. *)
Definition format_price_display (val : cell) : cell :=
  match val with
  | CNum q =>
      if Qeq_bool q 700000 then CStr "Call for Price"
      else CStr (RUPEE ++ format_comma_0f q)
  | CNaN => CStr (RUPEE ++ "nan")
  | CStr s =>
      match parse_float s with
      | Some q => if Qeq_bool q 700000 then CStr "Call for Price" else val
      | None => val
      end
  end.

(** The frame with the column [display_price] assigned. *)
Definition with_display_price (final_df : DataFrame) : DataFrame :=
  {| columns := if has_col "display_price" final_df
                then columns final_df
                else (columns final_df ++ ["display_price"])%list;
     rows := map (fun r => <["display_price" :=
                              format_price_display (at_col "price" r)]> r)
                 (rows final_df) |}.

(** [final_df["display_price"] = final_df["price"].apply(format_price_display)] *)
Definition add_display_price (final_df : DataFrame) : result DataFrame :=
  _ ← series "price" final_df;
  Ok (with_display_price final_df).

End Display.

(** Order of two sort keys: missing values last whatever the direction;
    numbers by value, text by code point. *)
Definition key_le (ascending : bool) (a b : cell) : bool :=
  match a, b with
  | _, CNaN => true
  | CNaN, _ => false
  | CNum p, CNum q => if ascending then Qle_bool p q else Qle_bool q p
  | CStr s, CStr t => if ascending then String.leb s t else String.leb t s
  | CNum _, CStr _ => true
  | CStr _, CNum _ => false
  end.

Fixpoint insert_row (by_col : string) (ascending : bool)
    (r : gmap string cell) (l : list (gmap string cell))
  : list (gmap string cell) :=
  match l with
  | [] => [r]
  | r' :: l' =>
      if key_le ascending (at_col by_col r) (at_col by_col r')
      then r :: l
      else r' :: insert_row by_col ascending r l'
  end.

(** [df.sort_values(by=col, ascending=asc)]: rows reordered by the key
    column alone; a column mixing text and numbers cannot be ordered. *)
Definition sort_values (by_col : string) (ascending : bool) (df : DataFrame)
  : result DataFrame :=
  keys ← series by_col df;
  if existsb (fun c => match c with CStr _ => true | _ => false end) keys
     && existsb (fun c => match c with CNum _ => true | _ => false end) keys
  then Raise TypeError
  else Ok {| columns := columns df;
             rows := fold_right (insert_row by_col ascending) [] (rows df) |}.

(** Two rows stand in the order of the sort. *)
Definition in_order (by_col : string) (ascending : bool)
    (r r' : gmap string cell) : Prop :=
  key_le ascending (at_col by_col r) (at_col by_col r') = true.

(** Lines 443-445: [sort_by] comes from the select box, [sort_order]
    from the radio. *)
Definition apply_sorting (sort_by sort_order : string) (final_df : DataFrame)
  : result DataFrame :=
  if negb (String.eqb sort_by "") && negb (String.eqb sort_by "None")
  then sort_values sort_by (String.eqb sort_order "Ascending") final_df
  else Ok final_df.

(** The sort keys the select box can offer. *)
Definition sort_options : list string :=
  ["None"; "price"; "carat_weight"; "weight_ratti"; "sku"; "name";
   "gemstone"; "cut"; "shape"].

(** ** Fetcher *)



Section Fetcher.
(** [pd.read_csv] on the text of the reply. *)
Variable read_csv : string -> result DataFrame.






End Fetcher.

(** ** State predicates *)



(** The page state is absent or a page number from 1 on. *)
Definition page_ok (ss : gmap string value) : Prop :=
  match ss !! "current_page" with
  | None => True
  | Some (VInt p) => (1 <= p)%Z
  | Some _ => False
  end.

(** ** Concrete numerals and a concrete reader

    The theorems below hold for every [Builtins] and every [read_csv].
    To run the embedded scripts on concrete inputs, this section fixes
    plain decimal numerals (an optional sign, digits, an optional
    fraction; no exponent) and a reader for unquoted comma-separated
    text, on which they agree with Python and pandas. *)

Definition digit_char (d : Z) : ascii := ascii_of_nat (48 + Z.to_nat d).

Definition parse_plain (s : string) : option Q :=
  let '(negative, body) :=
    match s with
    | String "-" t => (true, t)
    | String "+" t => (false, t)
    | _ => (false, s)
    end in
  let magnitude :=
    match PyStr.split "." body with
    | [i] =>
        if all_digits i
        then match read_decimal i with
             | Some n => Some (inject_Z n)
             | None => None
             end
        else None
    | [i; f] =>
        if all_digits i && all_digits f
        then match read_decimal i, read_decimal f with
             | Some n, Some m =>
                 let p := Pos.pow 10 (Pos.of_nat (String.length f)) in
                 Some (Qred (Qmake (n * Z.pos p + m) p))
             | _, _ => None
             end
        else None
    | _ => None
    end in
  match magnitude with
  | Some q => Some (if negative then Qopp q else q)
  | None => None
  end.

Fixpoint fraction_digits (fuel : nat) (r d : Z) : string :=
  match fuel with
  | O => ""
  | S fuel' =>
      if (r =? 0)%Z then ""
      else String (digit_char (r * 10 / d))
                  (fraction_digits fuel' ((r * 10) mod d) d)
  end.

Definition plain_str (q : Q) : string :=
  let n := Qnum q in
  let d := Z.pos (Qden q) in
  let a := Z.abs n in
  (if (n <? 0)%Z then "-" else "")
  ++ decimal (a / d) ++ "."
  ++ (if (a mod d =? 0)%Z then "0" else fraction_digits 17 (a mod d) d).

Definition plain_builtins : Builtins :=
  {| parse_float := parse_plain;
     float_str := fun q => plain_str (Qred q);
     float_str_proper := fun p q E => f_equal plain_str (Qred_complete p q E);
     py_lower := PyStr.ascii_lower;
     py_strip := PyStr.ascii_strip;
     py_lower_ascii := fun _ _ => eq_refl;
     py_strip_ascii := fun _ _ => eq_refl |}.




(** ** A small catalogue

    Five rows as [read_csv] would deliver them: the [qty] column holds
    one cell that is no number, so the whole column arrives as text. *)

Definition sample_columns : list string :=
  ["sku"; "attribute_set_id"; "qty"; "is_in_stock"; "product_type"; "price";
   "carat_weight"; "url_key"; "image"; "gemstone"; "shape"].

Definition sample_row (sku qty product_type : cell) (price carat : Q)
    (image gemstone shape : cell) : gmap string cell :=
  list_to_map
    [("sku", sku); ("attribute_set_id", CStr "Gemstones"); ("qty", qty);
     ("is_in_stock", CNum 1); ("product_type", product_type);
     ("price", CNum price); ("carat_weight", CNum carat);
     ("url_key", CStr "/stone"); ("image", image);
     ("gemstone", gemstone); ("shape", shape)].

Definition sample_raw : DataFrame :=
  {| columns := sample_columns;
     rows :=
       [sample_row (CStr "GP1") (CStr "5") (CStr "Ring") 1000 (5 # 2)
          (CStr "a.jpg") (CStr "Ruby") (CStr "Oval");
        sample_row (CStr "GP2") (CStr "n/a") (CStr "Ring") 2000 (3 # 1)
          (CStr "b.jpg") (CStr "Ruby") (CStr "Round");
        sample_row (CStr "GP3") (CStr "2") (CStr "Gold Pendant") 3000 (4 # 1)
          CNaN (CStr "Emerald") (CStr "Oval");
        sample_row (CStr "GP4") (CStr "1") CNaN 700000 (7 # 2)
          (CStr "g/p/GPX4.JPG") (CStr "Emerald") (CStr "Round");
        sample_row (CStr "GP5") (CStr "3") (CStr "Loose") 500 (1 # 1)
          CNaN (CStr "Ruby") (CStr "Pear")] |}.

(** What the dashboards and the report script make of it. *)
Definition sample_processed : DataFrame :=
  match fst (@process_dataframe plain_builtins sample_raw) with
  | Ok df => df
  | Raise _ => empty_frame
  end.

Definition sample_report : DataFrame :=
  match fst (@report_filter_block plain_builtins sample_raw) with
  | Ok df => df
  | Raise _ => empty_frame
  end.


Definition app_session : gmap string value :=
  <["slider_price" := VRange (Some 1000%Q) (Some 5000%Q)]>
    (<["input_max_price" := VFloat (Some 5000%Q)]>
       (<["input_min_price" := VFloat (Some 1000%Q)]> ∅)).

(** A session on the last page of a result of 100 items. *)
Definition grid_session : gmap string value :=
  <["current_page" := VInt 3]> (<["show_results" := VBool true]> ∅).

(** The first dashboard on the sample, with "Ruby" selected and the
    price range 1000 to 5000. *)
Definition sample_app_report : DataFrame * list (string * range_widget) :=
  match @app_report plain_builtins {["filter_gemstone" := ["Ruby"]]}
          app_session sample_processed with
  | Ok x => x
  | Raise _ => (empty_frame, [])
  end.


(** The range widgets of the second dashboard on the sample, from an
    empty session. *)
Definition sample_streamlit_ranges
  : gmap string value * list (string * range_widget) :=
  match Streamlit.range_loop sample_processed Streamlit.numeric_filters ∅ with
  | Ok x => x
  | Raise _ => (∅, [])
  end.


(** * Properties *)

(** ** Image URL reconstruction *)

Section ImageUrlFacts.
Context `{Builtins}.

Lemma startswith_gp_inv (s : string) :
  PyStr.startswith "gp" s = true -> exists t, s = String "g" (String "p" t).
Proof.
  unfold PyStr.startswith.
  destruct s as [|a [|b t]]; cbn [String.prefix]; try done.
  - by destruct (ascii_dec "g" a).
  - destruct (ascii_dec "g" a) as [<-|]; [|done].
    destruct (ascii_dec "p" b) as [<-|]; [|done].
    intros _. by exists t.
Qed.

Lemma startswith_gp_intro (t : string) :
  PyStr.startswith "gp" (String "g" (String "p" t)) = true.
Proof.
  unfold PyStr.startswith. cbn [String.prefix].
  destruct (ascii_dec "g" "g"); [|done].
  destruct (ascii_dec "p" "p"); [|done].
  by destruct t.
Qed.

(** The text that reaches the last [if] always begins with "gp". *)
Lemma normalized_filename_gp (c : cell) :
  exists t, normalized_filename c = String "g" (String "p" t).
Proof.
  unfold normalized_filename.
  destruct (PyStr.startswith "gp" _) eqn:E; simpl.
  - by apply startswith_gp_inv.
  - eauto.
Qed.

Lemma guard_false (c : cell) :
  c <> CNaN -> c <> CStr "" ->
  isna c || eq_text c "" = false.
Proof.
  intros Hn He. destruct c as [[|a s]|q|]; simpl; congruence.
Qed.

Lemma get_magento_url_steps (s : string) :
  s <> "" -> get_magento_url (CStr s) = image_url_steps (py_strip s).
Proof.
  intros Hs. unfold get_magento_url.
  rewrite guard_false by congruence.
  unfold image_url_steps, normalized_filename; simpl py_str.
  by destruct (PyStr.startswith "gp" _).
Qed.

(** On ASCII text the two worked examples run as they do in Python. *)
Lemma get_magento_url_GPX1 :
  get_magento_url (CStr "g/p/GPX1.JPG") = CDN_BASE ++ "/g/p/gpx1.jpg".
Proof.
  unfold get_magento_url, normalized_filename.
  cbn [py_str isna eq_text orb String.eqb Ascii.eqb Bool.eqb].
  rewrite (py_strip_ascii "g/p/GPX1.JPG" eq_refl).
  change (PyStr.last_item (PyStr.split "/" (PyStr.ascii_strip "g/p/GPX1.JPG")))
    with "GPX1.JPG".
  rewrite (py_lower_ascii "GPX1.JPG" eq_refl).
  reflexivity.
Qed.

Lemma get_magento_url_123 :
  get_magento_url (CStr "123.jpg") = CDN_BASE ++ "/g/p/gp123.jpg".
Proof.
  unfold get_magento_url, normalized_filename.
  cbn [py_str isna eq_text orb String.eqb Ascii.eqb Bool.eqb].
  rewrite (py_strip_ascii "123.jpg" eq_refl).
  change (PyStr.last_item (PyStr.split "/" (PyStr.ascii_strip "123.jpg")))
    with "123.jpg".
  rewrite (py_lower_ascii "123.jpg" eq_refl).
  reflexivity.
Qed.

End ImageUrlFacts.

(** C2, as the code has it.  Missing and empty input give the empty
    string.  On any other string the function strips surrounding
    whitespace, as Python's [str.strip] does, and then runs steps 1 to 4
    of the reconstruction on the stripped text; so on every string that
    [str.strip] leaves as it is, the function is exactly the five-step
    algorithm.  Lower-casing is Python's [str.lower] in the code and in
    the steps alike.  The three worked examples of the specification
    hold. *)
Theorem get_magento_url_algorithm `{Builtins} :
  get_magento_url CNaN = ""
  /\ get_magento_url (CStr "") = ""
  /\ (forall s, s <> "" ->
        get_magento_url (CStr s) = image_url_steps (py_strip s))
  /\ (forall s, py_strip s = s ->
        get_magento_url (CStr s) = image_url_spec s)
  /\ get_magento_url (CStr "g/p/GPX1.JPG") = CDN_BASE ++ "/g/p/gpx1.jpg"
  /\ get_magento_url (CStr "123.jpg") = CDN_BASE ++ "/g/p/gp123.jpg".
Proof.
  split; [reflexivity|]. split; [reflexivity|].
  split; [apply get_magento_url_steps|].
  split; [|split; [apply get_magento_url_GPX1 | apply get_magento_url_123]].
  intros s Hs. unfold image_url_spec.
  destruct (String.eqb_spec s "") as [->|Hne]; [reflexivity|].
  rewrite get_magento_url_steps by assumption. by rewrite Hs.
Qed.

(** The algorithm at an input without surrounding whitespace. *)
Lemma get_magento_url_algorithm_witness :
  @get_magento_url plain_builtins (CStr "g/p/GPX1.JPG")
  = @image_url_steps plain_builtins (@py_strip plain_builtins "g/p/GPX1.JPG")
  /\ @get_magento_url plain_builtins (CStr "g/p/GPX1.JPG")
     = @image_url_spec plain_builtins "g/p/GPX1.JPG".
Proof.
  destruct (@get_magento_url_algorithm plain_builtins) as (_ & _ & H3 & H4 & _).
  split; [apply H3; discriminate | apply H4; reflexivity].
Defined.

(** C2, as the claim has it, fails: a trailing space is stripped by the
    code and kept by the five steps of the specification. *)
Lemma get_magento_url_not_five_steps :
  @get_magento_url plain_builtins (CStr "x.jpg ") = CDN_BASE ++ "/g/p/gpx.jpg"
  /\ @image_url_spec plain_builtins "x.jpg " = CDN_BASE ++ "/g/p/gpx.jpg "
  /\ @get_magento_url plain_builtins (CStr "x.jpg ")
     <> @image_url_spec plain_builtins "x.jpg ".
Proof.
  split; [reflexivity|]. split; [reflexivity|].
  vm_compute. discriminate.
Qed.

(** C10: for every input that is neither missing nor the empty string,
    the normalised file name begins with "gp", so it has at least two
    characters, the test [len(s) >= 2] succeeds, and the URL produced is
    the base followed by the directory "g/p" and the name. *)
Theorem get_magento_url_g_p `{Builtins} (img_name : cell) :
  img_name <> CNaN -> img_name <> CStr "" ->
  PyStr.startswith "gp" (normalized_filename img_name) = true
  /\ (2 <= String.length (normalized_filename img_name))%nat
  /\ (2 <=? String.length (normalized_filename img_name))%nat = true
  /\ get_magento_url img_name
     = CDN_BASE ++ "/g/p/" ++ normalized_filename img_name.
Proof.
  intros Hn He.
  destruct (normalized_filename_gp img_name) as [t Ht].
  unfold get_magento_url. rewrite guard_false by assumption.
  rewrite Ht. split; [apply startswith_gp_intro|]. split; [cbn; lia|].
  split; reflexivity.
Qed.

Lemma get_magento_url_g_p_witness :
  PyStr.startswith "gp" (@normalized_filename plain_builtins (CStr "7.jpg")) = true
  /\ (2 <= String.length (@normalized_filename plain_builtins (CStr "7.jpg")))%nat
  /\ (2 <=? String.length (@normalized_filename plain_builtins (CStr "7.jpg")))%nat = true
  /\ @get_magento_url plain_builtins (CStr "7.jpg")
     = CDN_BASE ++ "/g/p/" ++ @normalized_filename plain_builtins (CStr "7.jpg").
Proof.
  apply (@get_magento_url_g_p plain_builtins (CStr "7.jpg")); discriminate.
Defined.

(** ** Cleaner / filter *)

Lemma at_col_insert_eq (col : string) (c : cell) (r : gmap string cell) :
  at_col col (<[col := c]> r) = c.
Proof. unfold at_col. by rewrite lookup_insert_eq. Qed.

Lemma at_col_insert_ne (col col' : string) (c : cell) (r : gmap string cell) :
  col <> col' -> at_col col' (<[col := c]> r) = at_col col' r.
Proof. intros Hne. unfold at_col. by rewrite lookup_insert_ne. Qed.

Lemma Qlt_bool_iff (a b : Q) : Qlt_bool a b = true <-> (a < b)%Q.
Proof.
  unfold Qlt_bool. rewrite negb_true_iff.
  destruct (Qle_bool b a) eqn:E.
  - apply Qle_bool_iff in E. split; [done|]. intros Hlt.
    exfalso. eapply Qlt_not_le; eauto.
  - split; [|done]. intros _. apply Qnot_le_lt. intros Hle.
    apply Qle_bool_iff in Hle. congruence.
Qed.

Section CleanerFacts.
Context `{Builtins}.

Lemma to_numeric_idem (c : cell) : to_numeric (to_numeric c) = to_numeric c.
Proof. destruct c as [s|q|]; simpl; [|done..]. by destruct (parse_float s). Qed.

Lemma to_numeric_number (c : cell) (q : Q) :
  c = CNum q -> to_numeric c = CNum q.
Proof. by intros ->. Qed.

(** The mask is the conjunction of the six predicates. *)
Lemma base_mask_six (r : gmap string cell) :
  base_mask r = true <-> six_predicates r.
Proof.
  unfold base_mask, is_gemstones, sku_has_GP, qty_positive, in_stock,
    not_pendant, price_positive.
  rewrite !andb_true_iff. split.
  - intros [[[[[H1 H2] H3] H4] H5] H6]. split.
    + destruct (at_col "attribute_set_id" r) as [s| |]; try done.
      apply String.eqb_eq in H1. by subst.
    + done.
    + destruct (at_col "qty" r) as [|q|]; try done.
      exists q. split; [done|]. by apply Qlt_bool_iff.
    + destruct (at_col "is_in_stock" r) as [|q|]; try done.
      exists q. split; [done|]. by apply Qeq_bool_iff.
    + intros s Hs. rewrite Hs in H5. by apply negb_true_iff in H5.
    + destruct (at_col "price" r) as [|q|]; try done.
      exists q. split; [done|]. by apply Qlt_bool_iff.
  - intros [H1 H2 (q3 & E3 & H3) (q4 & E4 & H4) H5 (q6 & E6 & H6)].
    rewrite H1, E3, E4, E6. repeat split; try done.
    + by apply Qlt_bool_iff.
    + by apply Qeq_bool_iff.
    + destruct (at_col "product_type" r) as [s| |]; try done.
      apply negb_true_iff. by apply H5.
    + by apply Qlt_bool_iff.
Qed.

Lemma base_filter_inv (df out : DataFrame) :
  base_filter df = Ok out -> out = select base_mask df.
Proof.
  unfold base_filter, mbind, result_bind.
  repeat (case_match; try done). congruence.
Qed.

Lemma rows_coerced (df : DataFrame) :
  rows (map_col "is_in_stock" to_numeric (map_col "qty" to_numeric df))
  = map coerce_row (rows df).
Proof. unfold map_col; simpl. by rewrite map_map. Qed.

Lemma has_col_map_col (col col' : string) (f : cell -> cell) (df : DataFrame) :
  has_col col (map_col col' f df) = has_col col df.
Proof. done. Qed.

Lemma rows_step (cols : list string) (col : string) (f : cell -> cell)
    (df : DataFrame) :
  columns df = cols ->
  rows (if has_col col df then map_col col f df else df)
  = map (on_col cols col f) (rows df)
  /\ columns (if has_col col df then map_col col f df else df) = cols.
Proof.
  intros <-. unfold on_col, has_col.
  destruct (bool_decide (col ∈ columns df)); simpl; [done|].
  by rewrite map_id.
Qed.

(** The three formatting steps act row by row as [format_row]. *)
Lemma rows_formatted (df : DataFrame) :
  rows (format_image (format_url_key (format_numeric df)))
  = map (format_row (columns df)) (rows df).
Proof.
  unfold format_image, format_url_key, format_numeric, numeric_cols.
  cbn [fold_left].
  set (cols := columns df).
  destruct (rows_step cols "carat_weight" to_numeric df eq_refl) as [R1 C1].
  destruct (rows_step cols "weight_ratti" to_numeric _ C1) as [R2 C2].
  destruct (rows_step cols "price" to_numeric _ C2) as [R3 C3].
  destruct (rows_step cols "url_key" product_url _ C3) as [R4 C4].
  destruct (rows_step cols "image" (fun c => CStr (get_magento_url c)) _ C4)
    as [R5 _].
  rewrite R5, R4, R3, R2, R1, !map_map. done.
Qed.

Lemma on_col_other (cols : list string) (col col' : string) (f : cell -> cell)
    (r : gmap string cell) :
  col <> col' -> at_col col' (on_col cols col f r) = at_col col' r.
Proof.
  intros Hne. unfold on_col. case_match; [|done].
  by apply at_col_insert_ne.
Qed.

Lemma on_col_fixed (cols : list string) (col : string) (f : cell -> cell)
    (r : gmap string cell) :
  f (at_col col r) = at_col col r ->
  at_col col (on_col cols col f r) = at_col col r.
Proof.
  intros Hf. unfold on_col. case_match; [|done].
  by rewrite at_col_insert_eq.
Qed.

(** Formatting leaves the six predicates as they are: it writes other
    columns, and for [price] it coerces what is a number already. *)
Lemma format_row_six (cols : list string) (r : gmap string cell) :
  six_predicates r -> six_predicates (format_row cols r).
Proof.
  intros [H1 H2 H3 H4 H5 H6].
  assert (Hprice : at_col "price" (format_row cols r) = at_col "price" r).
  { unfold format_row. rewrite !on_col_other by done.
    rewrite on_col_fixed; rewrite !on_col_other by done; [done|].
    destruct H6 as (q & -> & _). done. }
  assert (Hother : forall col,
             col <> "image" -> col <> "url_key" -> col <> "price" ->
             col <> "weight_ratti" -> col <> "carat_weight" ->
             at_col col (format_row cols r) = at_col col r).
  { intros col ? ? ? ? ?. unfold format_row.
    by rewrite !on_col_other by done. }
  split; rewrite ?Hprice, ?Hother by done; done.
Qed.

Lemma process_dataframe_inv (df out : DataFrame) :
  fst (process_dataframe df) = Ok out ->
  rows out
  = map (format_row (columns df))
        (List.filter base_mask (map coerce_row (rows df))).
Proof.
  unfold process_dataframe.
  destruct (series "qty" df); [|done].
  destruct (series "is_in_stock" _); [|done]. cbn [fst].
  destruct (base_filter _) as [g|] eqn:E; [|done].
  apply base_filter_inv in E. subst g.
  cbn [mbind result_bind]. intros [= <-].
  rewrite rows_formatted. cbn [select rows columns].
  by rewrite rows_coerced.
Qed.

Lemma report_filter_block_inv (df out : DataFrame) :
  fst (report_filter_block df) = Ok out ->
  rows out = List.filter base_mask (map coerce_row (rows df)).
Proof.
  unfold report_filter_block.
  destruct (series "qty" df); [|done].
  destruct (series "is_in_stock" _); [|done]. cbn [fst].
  intros E. apply base_filter_inv in E. subst out.
  cbn [select rows]. by rewrite rows_coerced.
Qed.

End CleanerFacts.

(** C1: every row of the table that [process_dataframe] returns (both
    dashboards) and of [df_gemstone] in the report script satisfies the
    six predicates, and every raw row that satisfies them (with [qty] and
    [is_in_stock] read as numbers, as the scripts do) is retained, in the
    dashboards under its formatted form. *)
Theorem filtered_table_six_predicates `{Builtins} (df out : DataFrame) :
  (fst (process_dataframe df) = Ok out ->
     (forall r, In r (rows out) -> six_predicates r)
     /\ (forall r, In r (rows df) -> six_predicates (coerce_row r) ->
           In (format_row (columns df) (coerce_row r)) (rows out)))
  /\ (fst (report_filter_block df) = Ok out ->
        (forall r, In r (rows out) -> six_predicates r)
        /\ (forall r, In r (rows df) -> six_predicates (coerce_row r) ->
              In (coerce_row r) (rows out))).
Proof.
  split; intros E.
  - apply process_dataframe_inv in E. rewrite E. split.
    + intros r (r0 & <- & Hin)%in_map_iff.
      apply filter_In in Hin as [_ Hm].
      apply format_row_six. by apply base_mask_six.
    + intros r Hin Hsix. apply in_map, filter_In. split.
      * by apply in_map.
      * by apply base_mask_six.
  - apply report_filter_block_inv in E. rewrite E. split.
    + intros r [_ Hm]%filter_In. by apply base_mask_six.
    + intros r Hin Hsix. apply filter_In. split.
      * by apply in_map.
      * by apply base_mask_six.
Qed.

Example sample_processed_skus :
  map (at_col "sku") (rows sample_processed) = [CStr "GP1"; CStr "GP4"; CStr "GP5"].
Proof. reflexivity. Qed.

Lemma filtered_table_six_predicates_witness :
  ((forall r, In r (rows sample_processed) -> @six_predicates plain_builtins r)
   /\ (forall r, In r (rows sample_raw) ->
         @six_predicates plain_builtins (@coerce_row plain_builtins r) ->
         In (@format_row plain_builtins (columns sample_raw)
               (@coerce_row plain_builtins r))
            (rows sample_processed)))
  /\ ((forall r, In r (rows sample_report) -> @six_predicates plain_builtins r)
      /\ (forall r, In r (rows sample_raw) ->
            @six_predicates plain_builtins (@coerce_row plain_builtins r) ->
            In (@coerce_row plain_builtins r) (rows sample_report))).
Proof.
  split.
  - apply (proj1 (@filtered_table_six_predicates plain_builtins
                    sample_raw sample_processed)).
    vm_compute. reflexivity.
  - apply (proj2 (@filtered_table_six_predicates plain_builtins
                    sample_raw sample_report)).
    vm_compute. reflexivity.
Defined.

(** ** Purity of the derivation *)

Section PurityFacts.
Context `{Builtins}.

Lemma map_col_coerced_again (col : string) (df : DataFrame) :
  (forall r, In r (rows df) ->
     exists c, r !! col = Some c /\ to_numeric c = c) ->
  map_col col to_numeric df = df.
Proof.
  intros Hrows. destruct df as [cols rs]. unfold map_col; simpl in *.
  f_equal. rewrite <- (map_id rs) at 2. apply map_ext_in.
  intros r Hin. destruct (Hrows r Hin) as (c & Hc & Hfix).
  unfold at_col. rewrite Hc. simpl. rewrite Hfix. by apply insert_id.
Qed.

Lemma rows_map_col_in (col : string) (df : DataFrame) (r : gmap string cell) :
  In r (rows (map_col col to_numeric df)) ->
  exists c, r !! col = Some c /\ to_numeric c = c.
Proof.
  unfold map_col; simpl. intros (r0 & <- & _)%in_map_iff.
  eexists. split; [apply lookup_insert_eq|apply to_numeric_idem].
Qed.

Lemma map_col_idem (col : string) (df : DataFrame) :
  map_col col to_numeric (map_col col to_numeric df)
  = map_col col to_numeric df.
Proof. apply map_col_coerced_again, rows_map_col_in. Qed.

Lemma map_col_qty_stable (df : DataFrame) :
  map_col "qty" to_numeric
    (map_col "is_in_stock" to_numeric (map_col "qty" to_numeric df))
  = map_col "is_in_stock" to_numeric (map_col "qty" to_numeric df).
Proof.
  apply map_col_coerced_again. intros r Hin.
  unfold map_col in Hin; simpl in Hin.
  apply in_map_iff in Hin as (r1 & <- & Hin).
  apply (rows_map_col_in "qty" df) in Hin as (c & Hc & Hfix).
  exists c. split; [|done]. by rewrite lookup_insert_ne.
Qed.

(** What a call leaves in its argument. *)
Lemma process_dataframe_leaves (df : DataFrame) :
  snd (process_dataframe df) = df /\ has_col "qty" df = false
  \/ snd (process_dataframe df) = map_col "qty" to_numeric df
     /\ has_col "is_in_stock" df = false
  \/ snd (process_dataframe df)
     = map_col "is_in_stock" to_numeric (map_col "qty" to_numeric df)
     /\ has_col "qty" df = true /\ has_col "is_in_stock" df = true.
Proof.
  unfold process_dataframe, series.
  rewrite has_col_map_col.
  destruct (has_col "qty" df) eqn:E1; [|by left].
  destruct (has_col "is_in_stock" df) eqn:E2; [|by right; left].
  by right; right.
Qed.

End PurityFacts.

(** C9, as the code has it.  The derivation is deterministic, also in
    the presence of its one effect: a call leaves its argument in a state
    on which a second call returns the same table and changes nothing.
    It is not free of effects on the raw table: the argument keeps its
    column index, its rows in number and order, and every cell outside
    the columns [qty] and [is_in_stock]; and when the call returns, those
    two columns hold the numeric coercion of what they held. *)
Theorem process_dataframe_effect_on_input `{Builtins} (df : DataFrame) :
  process_dataframe (snd (process_dataframe df)) = process_dataframe df
  /\ columns (snd (process_dataframe df)) = columns df
  /\ Forall2 (fun r r' => forall col, col <> "qty" -> col <> "is_in_stock" ->
                                      r' !! col = r !! col)
             (rows df) (rows (snd (process_dataframe df)))
  /\ (forall out, fst (process_dataframe df) = Ok out ->
        rows (snd (process_dataframe df)) = map coerce_row (rows df)).
Proof.
  split; [|split; [|split]].
  - unfold process_dataframe at 2 3. unfold series.
    rewrite has_col_map_col.
    destruct (has_col "qty" df) eqn:E1; cbn [snd].
    + destruct (has_col "is_in_stock" df) eqn:E2; cbn [snd].
      * unfold process_dataframe, series.
        rewrite !has_col_map_col, E1, E2.
        by rewrite map_col_qty_stable, map_col_idem.
      * unfold process_dataframe, series.
        rewrite !has_col_map_col, E1, E2. by rewrite map_col_idem.
    + unfold process_dataframe, series. by rewrite E1.
  - destruct (process_dataframe_leaves df) as [[-> _]|[[-> _]|[-> _]]]; done.
  - destruct (process_dataframe_leaves df) as [[-> _]|[[-> _]|[-> _]]].
    + apply Forall2_same_length_lookup_2; [done|].
      intros i r r' Hr Hr'. rewrite Hr in Hr'. by injection Hr' as ->.
    + unfold map_col; simpl. apply Forall2_fmap_r, Forall_Forall2_diag.
      apply Forall_forall. intros r _ col Hq _. by rewrite lookup_insert_ne.
    + rewrite rows_coerced. apply Forall2_fmap_r, Forall_Forall2_diag.
      apply Forall_forall. intros r _ col Hq Hs. unfold coerce_row.
      by rewrite !lookup_insert_ne.
  - intros out E. unfold process_dataframe in *.
    destruct (series "qty" df); [|done].
    destruct (series "is_in_stock" _); [|done]. cbn [snd].
    apply rows_coerced.
Qed.

Lemma process_dataframe_effect_on_input_witness :
  rows (snd (@process_dataframe plain_builtins sample_raw))
  = map (@coerce_row plain_builtins) (rows sample_raw).
Proof.
  apply (proj2 (proj2 (proj2
           (@process_dataframe_effect_on_input plain_builtins sample_raw)))
           sample_processed).
  vm_compute. reflexivity.
Defined.

(** C9, as the claim has it, fails: the call overwrites the [qty] column
    of the raw table it is given; the text "n/a" of the second row is a
    missing value afterwards. *)
Lemma process_dataframe_mutates_raw :
  map (at_col "qty") (rows sample_raw)
  = [CStr "5"; CStr "n/a"; CStr "2"; CStr "1"; CStr "3"]
  /\ map (at_col "qty") (rows (snd (@process_dataframe plain_builtins sample_raw)))
     = [CNum 5; CNaN; CNum 2; CNum 1; CNum 3]
  /\ snd (@process_dataframe plain_builtins sample_raw) <> sample_raw.
Proof.
  split; [reflexivity|]. split; [reflexivity|].
  intros E. apply (f_equal (fun d => map (at_col "qty") (rows d))) in E.
  vm_compute in E. discriminate.
Qed.

(** ** Cascading filters *)

Lemma In_insert_sorted (x y : string) (l : list string) :
  In y (insert_sorted x l) <-> y = x \/ In y l.
Proof.
  induction l as [|z l IH]; simpl.
  - intuition.
  - destruct (String.leb x z); simpl; [intuition|].
    rewrite IH. intuition.
Qed.

Lemma In_sorted (x : string) (l : list string) : In x (sorted l) <-> In x l.
Proof.
  induction l as [|y l IH]; simpl; [done|].
  rewrite In_insert_sorted, IH. intuition.
Qed.

Section Unique.
Context {A : Type} (eqb : A -> A -> bool).
Hypothesis eqb_refl : forall a, eqb a a = true.

Let add (acc : list A) (c : A) : list A :=
  if existsb (eqb c) acc then acc else (acc ++ [c])%list.

Lemma unique_fold_sub (l acc : list A) (x : A) :
  In x (fold_left add l acc) -> In x acc \/ In x l.
Proof.
  revert acc. induction l as [|a l IH]; intros acc; simpl; [auto|].
  intros [Hacc|Hl]%IH; [|auto]. unfold add in Hacc.
  destruct (existsb (eqb a) acc); [auto|].
  apply in_app_or in Hacc as [?|[<-|[]]]; auto.
Qed.

Lemma unique_fold_keeps (l acc : list A) (x : A) :
  In x acc -> In x (fold_left add l acc).
Proof.
  revert acc. induction l as [|a l IH]; intros acc Hin; simpl; [done|].
  apply IH. unfold add. destruct (existsb (eqb a) acc); [done|].
  apply in_or_app. auto.
Qed.

Lemma unique_fold_covers (l acc : list A) (x : A) :
  In x l -> exists y, In y (fold_left add l acc) /\ eqb x y = true.
Proof.
  revert acc. induction l as [|a l IH]; intros acc; simpl; [done|].
  intros [->|Hin]; [|by apply IH].
  unfold add at 2. destruct (existsb (eqb x) acc) eqn:E.
  - apply existsb_exists in E as (y & Hy & Hxy).
    exists y. split; [|done]. by apply unique_fold_keeps.
  - exists x. split; [|done]. apply unique_fold_keeps, in_or_app.
    right. by left.
Qed.

Lemma unique_by_sub (l : list A) (x : A) : In x (unique_by eqb l) -> In x l.
Proof. intros [[]|?]%unique_fold_sub. done. Qed.

Lemma unique_by_covers (l : list A) (x : A) :
  In x l -> exists y, In y (unique_by eqb l) /\ eqb x y = true.
Proof. apply unique_fold_covers. Qed.

End Unique.

Lemma cell_eqb_refl (c : cell) : cell_eqb c c = true.
Proof.
  destruct c as [s|q|]; simpl; [apply String.eqb_refl| |done].
  apply Qeq_bool_iff. reflexivity.
Qed.

Section CascadeFacts.
Context `{Builtins}.

Lemma cell_eqb_str (a b : cell) : cell_eqb a b = true -> py_str a = py_str b.
Proof.
  destruct a as [s|p|], b as [t|q|]; simpl; try done.
  - by intros ->%String.eqb_eq.
  - intros E%Qeq_bool_iff. by apply float_str_proper.
Qed.

(** An option of app.py is the text of a present cell of the column. *)
Lemma options_app_spec (col_name : string) (df : DataFrame) (x : string) :
  In x (options_app col_name df)
  <-> exists r, In r (rows df) /\ isna (at_col col_name r) = false
                /\ py_str (at_col col_name r) = x.
Proof.
  unfold options_app, dropna. rewrite In_sorted, in_map_iff. split.
  - intros (c & <- & Hc). apply unique_by_sub in Hc.
    apply filter_In in Hc as [Hc Hna].
    apply in_map_iff in Hc as (r & <- & Hr).
    exists r. by rewrite negb_true_iff in Hna.
  - intros (r & Hr & Hna & <-).
    destruct (unique_by_covers cell_eqb cell_eqb_refl
                (List.filter (fun c => negb (isna c))
                   (map (at_col col_name) (rows df)))
                (at_col col_name r)) as (c & Hc & E).
    { apply filter_In. split; [by apply in_map|]. by rewrite Hna. }
    exists c. split; [|done]. symmetry. by apply cell_eqb_str.
Qed.

(** An option of streamlit_app.py is the text of a cell of the column,
    "None" standing for a missing one. *)
Lemma options_streamlit_spec (col_name : string) (df : DataFrame) (x : string) :
  In x (options_streamlit col_name df)
  <-> exists r, In r (rows df)
                /\ py_str (fillna "None" (at_col col_name r)) = x.
Proof.
  unfold options_streamlit. rewrite In_sorted. split.
  - intros Hx%unique_by_sub. apply in_map_iff in Hx as (r & <- & Hr). eauto.
  - intros (r & Hr & <-).
    destruct (unique_by_covers String.eqb String.eqb_refl
                (map (fun r => py_str (fillna "None" (at_col col_name r)))
                     (rows df))
                (py_str (fillna "None" (at_col col_name r)))) as (y & Hy & E).
    { apply in_map_iff. eauto. }
    apply String.eqb_eq in E. by subst y.
Qed.

Lemma options_app_monotone : monotone_options options_app.
Proof.
  intros col_name df df' Hsub x (r & Hr & Hna & Hx)%options_app_spec.
  apply options_app_spec. exists r. auto.
Qed.

Lemma options_streamlit_monotone : monotone_options options_streamlit.
Proof.
  intros col_name df df' Hsub x (r & Hr & Hx)%options_streamlit_spec.
  apply options_streamlit_spec. exists r. auto.
Qed.

Lemma narrower_refl (st : cascade) : narrower st st.
Proof. repeat split; intros; apply incl_refl. Qed.

Lemma options_of_insert (col_name c : string) (options : list string)
    (df : DataFrame) (sel m : gmap string (list string)) :
  options_of {| current_df := df; selected_filters := sel;
                offered := <[col_name := options]> m |} c
  = if decide (col_name = c) then options else default [] (m !! c).
Proof.
  unfold options_of; simpl. rewrite lookup_insert. by case_decide.
Qed.

Section Step.
Variable options_for : string -> DataFrame -> list string.
Variable keep : list string -> cell -> bool.
Hypothesis options_mono : monotone_options options_for.
Variables w w' : gmap string (list string).
(** The second run holds the same selection or none, key by key. *)
Hypothesis cleared : forall key,
  multiselect w' key = multiselect w key \/ multiselect w' key = [].

Lemma cascade_step_narrower (st st' : cascade) (entry : string * string) :
  narrower st st' ->
  narrower (cascade_step w options_for keep st entry)
           (cascade_step w' options_for keep st' entry).
Proof.
  intros (Hcols & Hrows & Hopts). unfold cascade_step, has_col.
  rewrite Hcols.
  destruct (bool_decide (fst entry ∈ columns (current_df st'))); [|done].
  pose proof (options_mono (fst entry) _ _ Hrows) as Hnew.
  assert (Hoff : forall df df' sel sel' c,
             incl (options_of {| current_df := df; selected_filters := sel;
                      offered := <[fst entry := options_for (fst entry) (current_df st)]>
                                   (offered st) |} c)
                  (options_of {| current_df := df'; selected_filters := sel';
                      offered := <[fst entry := options_for (fst entry) (current_df st')]>
                                   (offered st') |} c)).
  { intros. rewrite !options_of_insert. case_decide; [done|apply Hopts]. }
  destruct (cleared ("filter_" ++ fst entry)) as [-> | ->].
  - destruct (multiselect w _) as [|v val].
    + repeat split; simpl; auto.
    + repeat split; simpl; auto.
      intros r [Hr Hk]%filter_In. apply filter_In. auto.
  - destruct (multiselect w _) as [|v val].
    + repeat split; simpl; auto.
    + repeat split; simpl; auto.
      intros r [Hr Hk]%filter_In. auto.
Qed.

Lemma cascade_fold_narrower (order : list (string * string))
    (st st' : cascade) :
  narrower st st' ->
  narrower (fold_left (cascade_step w options_for keep) order st)
           (fold_left (cascade_step w' options_for keep) order st').
Proof.
  revert st st'. induction order as [|entry order IH]; intros st st' Hn.
  - done.
  - simpl. by apply IH, cascade_step_narrower.
Qed.

End Step.

Lemma clear_selection_cleared (col_name : string)
    (w : gmap string (list string)) (key : string) :
  multiselect (clear_selection col_name w) key = multiselect w key
  \/ multiselect (clear_selection col_name w) key = [].
Proof.
  unfold multiselect, clear_selection. rewrite lookup_insert.
  case_decide; [by right|by left].
Qed.

End CascadeFacts.

(** C3: in both dashboards, and for every pair of filters of the
    priority order, the option list offered for the later filter when the
    earlier filter holds a selection is included in the option list
    offered when that selection is empty (all other selections being the
    same): making a selection never adds an option to any filter. *)
Theorem cascade_options_never_expand `{Builtins}
    (widgets : gmap string (list string)) (df_processed : DataFrame)
    (earlier later : string) :
  incl (options_of (cascade_app widgets df_processed) later)
       (options_of (cascade_app (clear_selection earlier widgets) df_processed)
                   later)
  /\ incl (options_of (cascade_streamlit widgets df_processed) later)
          (options_of (cascade_streamlit (clear_selection earlier widgets)
                         df_processed) later).
Proof.
  split.
  - apply (cascade_fold_narrower options_app isin options_app_monotone
             widgets (clear_selection earlier widgets)
             (clear_selection_cleared earlier widgets)
             filter_order_app _ _ (narrower_refl _)).
  - apply (cascade_fold_narrower options_streamlit mask_streamlit
             options_streamlit_monotone
             widgets (clear_selection earlier widgets)
             (clear_selection_cleared earlier widgets)
             filter_order_streamlit _ _ (narrower_refl _)).
Qed.

(** On the sample: choosing "Ruby" leaves two of the three shapes. *)
Example cascade_sample :
  options_of (@cascade_streamlit plain_builtins
                {["filter_gemstone" := ["Ruby"]]} sample_processed) "shape"
  = ["Oval"; "Pear"]
  /\ options_of (@cascade_streamlit plain_builtins
                   (clear_selection "gemstone" {["filter_gemstone" := ["Ruby"]]})
                   sample_processed) "shape"
     = ["Oval"; "Pear"; "Round"].
Proof. split; reflexivity. Qed.

(** ** Numeric range synchronisation *)




Section StreamlitSync.
Variable col : string.




End StreamlitSync.

Section AppSync.
Variable col : string.



End AppSync.




(** ** Pagination *)

Lemma total_pages_ge_1 (n : Z) : (1 <= total_pages n)%Z.
Proof. unfold total_pages. lia. Qed.

Lemma total_pages_ceil (n : Z) :
  total_pages n = Z.max 1 (ceil_div n ITEMS_PER_PAGE).
Proof.
  unfold total_pages, ceil_div, ITEMS_PER_PAGE. f_equal.
  pose proof (Z.div_mod (n + 48 - 1) 48 ltac:(lia)).
  pose proof (Z.mod_pos_bound (n + 48 - 1) 48 ltac:(lia)).
  pose proof (Z.div_mod (- n) 48 ltac:(lia)).
  pose proof (Z.mod_pos_bound (- n) 48 ltac:(lia)).
  lia.
Qed.

Lemma page_of_insert (p : Z) (ss : gmap string value) :
  page_of (<["current_page" := VInt p]> ss) = Some p.
Proof. unfold page_of. by rewrite lookup_insert_eq. Qed.

(** The grid branch on a state with a page number from 1 on. *)
Lemma grid_view_run (n : Z) (c : click) (ss : gmap string value) :
  page_ok ss ->
  exists ss' e p,
    grid_view n c ss = Ok (ss', e)
    /\ page_of ss' = Some p /\ (1 <= p <= total_pages n)%Z.
Proof.
  intros Hok. unfold page_ok in Hok. unfold grid_view.
  pose proof (total_pages_ge_1 n) as Htp.
  set (tp := total_pages n) in *.
  assert (Hrun : forall (ss1 : gmap string value) p0,
             ss1 !! "current_page" = Some (VInt p0) -> (1 <= p0)%Z ->
             exists ss' e p,
               match ss1 !! "current_page" with
               | Some (VInt page) =>
                   let ss2 := if (page >? tp)%Z
                              then <["current_page" := VInt tp]> ss1 else ss1 in
                   match ss2 !! "current_page" with
                   | Some (VInt current_page) =>
                       if button ClickPrevious (current_page =? 1)%Z c
                       then Ok (<["current_page" := VInt (current_page - 1)]> ss2, Rerun)
                       else if button ClickNext (current_page =? tp)%Z c
                       then Ok (<["current_page" := VInt (current_page + 1)]> ss2, Rerun)
                       else Ok (ss2, Finished)
                   | _ => Raise TypeError
                   end
               | _ => Raise TypeError
               end = Ok (ss', e)
               /\ page_of ss' = Some p /\ (1 <= p <= tp)%Z).
  { intros ss1 p0 Hp0 Hge. rewrite Hp0. cbn zeta.
    set (ss2 := if (p0 >? tp)%Z then _ else ss1).
    assert (exists q, ss2 !! "current_page" = Some (VInt q) /\ (1 <= q <= tp)%Z)
      as (q & Hq & Hrange).
    { subst ss2. destruct (p0 >? tp)%Z eqn:E.
      - exists tp. split; [apply lookup_insert_eq|lia].
      - exists p0. split; [done|lia]. }
    rewrite Hq. unfold button.
    destruct (q =? 1)%Z eqn:E1, (q =? tp)%Z eqn:E2, c; cbn;
      eexists _, _, _; (split; [reflexivity|]);
      rewrite ?page_of_insert; unfold page_of; rewrite ?Hq;
      (split; [reflexivity|]); lia. }
  destruct (ss !! "current_page") as [[| p | |]|] eqn:E; try done.
  - by apply (Hrun ss p).
  - apply (Hrun _ 1%Z); [apply lookup_insert_eq|lia].
Qed.

Lemma grid_view_disabled (n : Z) (ss : gmap string value) (p : Z) :
  ss !! "current_page" = Some (VInt p) -> (1 <= p <= total_pages n)%Z ->
  (p = total_pages n -> grid_view n ClickNext ss = Ok (ss, Finished))
  /\ (p = 1%Z -> grid_view n ClickPrevious ss = Ok (ss, Finished))
  /\ grid_view n NoClick ss = Ok (ss, Finished).
Proof.
  intros Hp Hrange. unfold grid_view. rewrite Hp. cbn zeta. rewrite Hp.
  assert ((p >? total_pages n)%Z = false) as -> by lia.
  rewrite Hp. unfold button. repeat split.
  - intros ->. rewrite Z.eqb_refl. cbn. by rewrite andb_false_r.
  - intros ->. cbn. by rewrite andb_false_r.
  - cbn. by rewrite !andb_false_r.
Qed.

Lemma grid_view_clamps (n : Z) (ss : gmap string value) (p : Z) :
  ss !! "current_page" = Some (VInt p) -> (1 <= p)%Z ->
  exists ss', grid_view n NoClick ss = Ok (ss', Finished)
              /\ page_of ss' = Some (Z.min p (total_pages n)).
Proof.
  intros Hp Hge. unfold grid_view. rewrite Hp. cbn zeta. rewrite Hp.
  destruct (p >? total_pages n)%Z eqn:E.
  - rewrite lookup_insert_eq. unfold button. cbn. rewrite !andb_false_r.
    eexists. split; [done|].
    rewrite page_of_insert. f_equal. lia.
  - rewrite Hp. unfold button. cbn. rewrite !andb_false_r.
    eexists. split; [done|].
    unfold page_of. rewrite Hp. f_equal. lia.
Qed.

(** C5, as the code has it.  The page count is
    [max(1, ceil(result_count / 48))]: the ceiling for a non-empty
    result, and 1 for an empty one.  From a page state that is absent or
    at least 1, the grid branch ends, whatever was clicked, with a page
    number in [1, total_pages]; a run without a click clamps the page to
    the page count.  Next on the last page and Previous on page 1 are
    disabled and leave the state as it is.  The page is set to 1 by the
    Apply Filters action.  For 100 result items the page count is 3. *)
Theorem pagination_bounds (n : Z) (ss : gmap string value) :
  total_pages n = Z.max 1 (ceil_div n ITEMS_PER_PAGE)
  /\ ((0 < n)%Z -> total_pages n = ceil_div n ITEMS_PER_PAGE)
  /\ (page_ok ss -> forall c,
        exists ss' e p, grid_view n c ss = Ok (ss', e)
                        /\ page_of ss' = Some p /\ (1 <= p <= total_pages n)%Z)
  /\ (forall p, ss !! "current_page" = Some (VInt p) -> (1 <= p)%Z ->
        exists ss', grid_view n NoClick ss = Ok (ss', Finished)
                    /\ page_of ss' = Some (Z.min p (total_pages n)))
  /\ (forall p, ss !! "current_page" = Some (VInt p) ->
        (1 <= p <= total_pages n)%Z ->
        (p = total_pages n -> grid_view n ClickNext ss = Ok (ss, Finished))
        /\ (p = 1%Z -> grid_view n ClickPrevious ss = Ok (ss, Finished)))
  /\ (forall grid_mode,
        exists ss', interaction grid_mode n ClickApply ss = Ok ss'
                    /\ page_of ss' = Some 1%Z)
  /\ total_pages 100 = 3%Z.
Proof.
  split; [apply total_pages_ceil|].
  split.
  { intros Hn. rewrite total_pages_ceil. unfold ceil_div, ITEMS_PER_PAGE.
    pose proof (Z.div_mod (- n) 48 ltac:(lia)).
    pose proof (Z.mod_pos_bound (- n) 48 ltac:(lia)). lia. }
  split; [intros Hok c; by apply grid_view_run|].
  split; [intros p Hp Hge; by apply grid_view_clamps|].
  split.
  { intros p Hp Hr. destruct (grid_view_disabled n ss p Hp Hr) as (H1 & H2 & _).
    by split. }
  split; [|reflexivity].
  intros grid_mode. unfold interaction, run.
  cbn [apply_filters button negb andb mbind result_bind].
  set (ss1 := <["current_page" := VInt 1]> (<["show_results" := VBool true]> ss)).
  assert (Hshow : ss1 !! "show_results" = Some (VBool true)).
  { subst ss1. rewrite lookup_insert_ne by done. apply lookup_insert_eq. }
  rewrite Hshow. destruct grid_mode.
  - destruct (grid_view_clamps n ss1 1%Z) as (ss' & E & Hp);
      [apply lookup_insert_eq|lia|].
    rewrite E. exists ss'. split; [done|].
    rewrite Hp. f_equal. pose proof (total_pages_ge_1 n). lia.
  - exists ss1. split; [done|]. apply page_of_insert.
Qed.

Lemma pagination_bounds_witness :
  grid_view 100 ClickNext grid_session = Ok (grid_session, Finished).
Proof.
  destruct (pagination_bounds 100 grid_session) as (_ & _ & _ & _ & H & _).
  destruct (H 3%Z) as [Hnext _];
    [reflexivity | vm_compute; split; discriminate |].
  apply Hnext. reflexivity.
Defined.

(** C5, as the claim has it, fails twice.  An empty result has one page,
    not [ceil(0 / 48) = 0].  And a run started by a changed filter, not
    by the Apply Filters button, keeps the page: from page 2 of 100 items
    to 60 items the page is still 2. *)
Lemma pagination_not_ceiling_nor_reset :
  total_pages 0 = 1%Z
  /\ ceil_div 0 ITEMS_PER_PAGE = 0%Z
  /\ total_pages 0 <> ceil_div 0 ITEMS_PER_PAGE
  /\ exists ss',
       interaction true 60 NoClick
         (<["current_page" := VInt 2]> (<["show_results" := VBool true]> ∅))
       = Ok ss'
       /\ page_of ss' = Some 2%Z.
Proof.
  split; [reflexivity|]. split; [reflexivity|]. split; [discriminate|].
  eexists. split; reflexivity.
Qed.

(** ** Price display *)














(** ** Sorting *)

Lemma key_le_total (ascending : bool) (a b : cell) :
  key_le ascending a b = true \/ key_le ascending b a = true.
Proof.
  assert (HQ : forall p q, Qle_bool p q = true \/ Qle_bool q p = true).
  { intros p q. destruct (Qlt_le_dec p q) as [Hlt|Hle].
    - left. apply Qle_bool_iff. by apply Qlt_le_weak.
    - right. by apply Qle_bool_iff. }
  destruct a as [s|p|], b as [t|q|], ascending; simpl; auto;
    try apply String.leb_total; apply HQ.
Qed.

Section SortFacts.
Variable by_col : string.
Variable ascending : bool.



Lemma insert_row_sorted (r : gmap string cell) (l : list (gmap string cell)) :
  Sorted (in_order by_col ascending) l -> Sorted (in_order by_col ascending) (insert_row by_col ascending r l).
Proof.
  induction l as [|r' l IH]; intros Hs; simpl.
  - repeat constructor.
  - destruct (key_le ascending (at_col by_col r) (at_col by_col r')) eqn:E.
    + constructor; [done|]. by constructor.
    + inversion Hs as [|? ? Hs' Hhd]; subst.
      constructor; [by apply IH|].
      assert (Hr : in_order by_col ascending r' r).
      { unfold in_order.
        destruct (key_le_total ascending (at_col by_col r) (at_col by_col r'));
          [congruence|done]. }
      destruct l as [|r'' l]; simpl; [by constructor|].
      destruct (key_le ascending (at_col by_col r) (at_col by_col r''));
        constructor; [done|].
      by inversion Hhd.
Qed.

Lemma sort_rows_sorted (l : list (gmap string cell)) :
  Sorted (in_order by_col ascending) (fold_right (insert_row by_col ascending) [] l).
Proof.
  induction l as [|r l IH]; simpl; [constructor|].
  by apply insert_row_sorted.
Qed.


Lemma sort_values_inv (df out : DataFrame) :
  sort_values by_col ascending df = Ok out ->
  columns out = columns df
  /\ rows out = fold_right (insert_row by_col ascending) [] (rows df).
Proof.
  unfold sort_values, series. destruct (has_col by_col df); [|done].
  cbn [mbind result_bind]. destruct (_ && _); [done|].
  by intros [= <-].
Qed.

End SortFacts.

Section DisplayFacts.
Context `{Builtins}.





End DisplayFacts.



(** On the sample, "Call for Price" sorts as 700000. *)
Example display_sorted_sample :
  match d ← @add_display_price plain_builtins sample_processed;
        apply_sorting "price" "Descending" d with
  | Ok d => map (at_col "display_price") (rows d)
  | Raise _ => []
  end = [CStr "Call for Price"; CStr "₹1,000"; CStr "₹500"].
Proof. reflexivity. Qed.

(** ** Range bounds and the final result *)

Section Extremum.
(** [pick q m] says that [q] replaces the running extremum [m]. *)
Variable pick : Q -> Q -> bool.
Variable before : Q -> Q -> Prop.
Hypothesis before_refl : forall a, before a a.
Hypothesis before_trans : forall a b c, before a b -> before b c -> before a c.
Hypothesis pick_true : forall q m, pick q m = true -> before q m.
Hypothesis pick_false : forall q m, pick q m = false -> before m q.

Let step (acc : option Q) (c : cell) : option Q :=
  match c, acc with
  | CNum q, Some m => Some (if pick q m then q else m)
  | CNum q, None => Some q
  | _, _ => acc
  end.

Lemma extremum_fold (l : list cell) (acc : option Q) (m : Q) :
  fold_left step l acc = Some m ->
  (acc = Some m \/ In (CNum m) l)
  /\ (forall a, acc = Some a -> before m a)
  /\ (forall q, In (CNum q) l -> before m q).
Proof.
  revert acc. induction l as [|c l IH]; intros acc E; simpl in E.
  - split; [by left|]. split; [|done].
    intros a Ha. rewrite Ha in E. injection E as ->. apply before_refl.
  - apply IH in E as (Hat & Hacc & Hl).
    destruct c as [s|q|]; simpl in *.
    + split; [intuition|]. split; [done|]. intros q [?|?]; [done|auto].
    + destruct acc as [a|].
      * assert (Hm : before m (if pick q a then q else a)) by by apply Hacc.
        destruct (pick q a) eqn:P.
        -- split; [destruct Hat as [[= ->]|?]; auto|].
           split.
           ++ intros a' [= <-]. eapply before_trans; [exact Hm|].
              by apply pick_true.
           ++ intros q' [[= <-]|?]; auto.
        -- split; [destruct Hat as [[= ->]|?]; auto|].
           split.
           ++ by intros a' [= <-].
           ++ intros q' [[= <-]|?]; [|auto].
              eapply before_trans; [exact Hm|]. by apply pick_false.
      * split; [destruct Hat as [[= ->]|?]; auto|]. split; [done|].
        intros q' [[= <-]|?]; auto.
    + split; [intuition|]. split; [done|]. intros q [?|?]; [done|auto].
Qed.

End Extremum.

(** The global minimum of a column: attained, and below every number. *)
Lemma series_min_spec (col : string) (df : DataFrame) (m : Q) :
  series_min (column_values col df) = Some m ->
  (exists r, In r (rows df) /\ at_col col r = CNum m)
  /\ (forall r q, In r (rows df) -> at_col col r = CNum q -> (m <= q)%Q).
Proof.
  intros E.
  apply (extremum_fold (fun q m => Qlt_bool q m) Qle Qle_refl Qle_trans) in E
    as ([?|Hat] & _ & Hl); [done| | |].
  - split.
    + apply in_map_iff in Hat as (r & Hr & Hin). eauto.
    + intros r q Hin Hq. apply Hl. rewrite <- Hq. by apply in_map.
  - intros q a Hlt%Qlt_bool_iff. by apply Qlt_le_weak.
  - intros q a Hn. apply Qnot_lt_le. intros Hlt%Qlt_bool_iff. congruence.
Qed.

Lemma series_max_spec (col : string) (df : DataFrame) (m : Q) :
  series_max (column_values col df) = Some m ->
  (exists r, In r (rows df) /\ at_col col r = CNum m)
  /\ (forall r q, In r (rows df) -> at_col col r = CNum q -> (q <= m)%Q).
Proof.
  intros E.
  apply (extremum_fold (fun q m => Qlt_bool m q) (fun a b => Qle b a)) in E
    as ([?|Hat] & _ & Hl); [done| | | | |].
  - split.
    + apply in_map_iff in Hat as (r & Hr & Hin). eauto.
    + intros r q Hin Hq. apply Hl. rewrite <- Hq. by apply in_map.
  - apply Qle_refl.
  - intros a b c Hab Hbc. by apply Qle_trans with b.
  - intros q a Hlt%Qlt_bool_iff. by apply Qlt_le_weak.
  - intros q a Hn. apply Qnot_lt_le. intros Hlt%Qlt_bool_iff. congruence.
Qed.







Lemma cascade_step_columns (w : gmap string (list string))
    (options_for : string -> DataFrame -> list string)
    (keep : list string -> cell -> bool)
    (order : list (string * string)) (st : cascade) :
  columns (current_df (fold_left (cascade_step w options_for keep) order st))
  = columns (current_df st).
Proof.
  revert st. induction order as [|entry order IH]; intros st; simpl; [done|].
  rewrite IH. unfold cascade_step.
  destruct (has_col _ _); [|done]. by destruct (multiselect _ _).
Qed.



Lemma cascade_app_columns `{Builtins} (widgets : gmap string (list string))
    (df : DataFrame) :
  columns (current_df (cascade_app widgets df)) = columns df.
Proof. unfold cascade_app, step_app. apply cascade_step_columns. Qed.

Lemma cascade_streamlit_columns `{Builtins}
    (widgets : gmap string (list string)) (df : DataFrame) :
  columns (current_df (cascade_streamlit widgets df)) = columns df.
Proof. unfold cascade_streamlit, step_streamlit. apply cascade_step_columns. Qed.





(** On the sample: "Ruby" keeps GP1 and GP5, the price range 1000 to
    5000 then keeps GP1, while the price bounds stay those of the whole
    cleaned table, 500 to 700000. *)
Example sample_app_report_values :
  map (at_col "sku") (rows (fst sample_app_report)) = [CStr "GP1"]
  /\ map (fun cw => (fst cw, bounds (snd cw))) (snd sample_app_report)
     = [("carat_weight", (Some (1 # 1), Some (7 # 2)));
        ("price", (Some (500 # 1), Some (700000 # 1)))].
Proof. split; vm_compute; reflexivity. Qed.

(** ** Fetcher *)






(** * Further properties of the code *)

(** ** When the cleaner returns, and what it raises *)

Section CleanerErrors.
Context `{Builtins}.

Lemma coerced_other_column (col : string) (df : DataFrame) :
  col <> "qty" -> col <> "is_in_stock" ->
  column_values col
    (map_col "is_in_stock" to_numeric (map_col "qty" to_numeric df))
  = column_values col df.
Proof.
  intros Hq Hs. unfold column_values. rewrite rows_coerced, map_map.
  apply map_ext. intros r. unfold coerce_row.
  rewrite at_col_insert_ne by congruence.
  rewrite at_col_insert_ne by congruence. reflexivity.
Qed.

Lemma series_values (col : string) (df : DataFrame) :
  series col df
  = if has_col col df then Ok (column_values col df) else Raise (KeyError col).
Proof. reflexivity. Qed.

End CleanerErrors.

(** [process_dataframe] returns a table exactly when the six columns of
    the filter are present, the [product_type] column is not a non-empty
    column of numbers only, and the [price] column holds no text.  A
    missing [qty] column raises [KeyError] before anything is assigned;
    text in the [price] column of an otherwise well-formed table raises
    [TypeError]. *)
Theorem process_dataframe_returns_iff `{Builtins} (df : DataFrame) :
  ((exists out, fst (process_dataframe df) = Ok out)
   <-> (forall col,
          In col ["qty"; "is_in_stock"; "attribute_set_id"; "sku";
                  "product_type"; "price"] ->
          has_col col df = true)
       /\ str_accessor (column_values "product_type" df) = Ok tt
       /\ existsb is_text (column_values "price" df) = false)
  /\ (has_col "qty" df = false ->
      process_dataframe df = (Raise (KeyError "qty"), df))
  /\ ((forall col,
         In col ["qty"; "is_in_stock"; "attribute_set_id"; "sku";
                 "product_type"; "price"] ->
         has_col col df = true) ->
      str_accessor (column_values "product_type" df) = Ok tt ->
      existsb is_text (column_values "price" df) = true ->
      fst (process_dataframe df) = Raise TypeError).
Proof.
  assert (Hshape :
            fst (process_dataframe df)
            = if has_col "qty" df then
                if has_col "is_in_stock" df then
                  if has_col "attribute_set_id" df then
                    if has_col "sku" df then
                      if has_col "product_type" df then
                        match str_accessor (column_values "product_type" df) with
                        | Ok _ =>
                            if has_col "price" df then
                              if existsb is_text (column_values "price" df)
                              then Raise TypeError
                              else Ok (format_image
                                         (format_url_key
                                            (format_numeric
                                               (select base_mask
                                                  (map_col "is_in_stock" to_numeric
                                                     (map_col "qty" to_numeric df))))))
                            else Raise (KeyError "price")
                        | Raise e => Raise e
                        end
                      else Raise (KeyError "product_type")
                    else Raise (KeyError "sku")
                  else Raise (KeyError "attribute_set_id")
                else Raise (KeyError "is_in_stock")
              else Raise (KeyError "qty")).
  { unfold process_dataframe. rewrite !series_values, has_col_map_col.
    destruct (has_col "qty" df) eqn:E1; [|reflexivity].
    destruct (has_col "is_in_stock" df) eqn:E2; [|reflexivity].
    cbn [fst]. unfold base_filter. rewrite !series_values.
    rewrite !has_col_map_col, E1, E2.
    rewrite (coerced_other_column "product_type") by discriminate.
    rewrite (coerced_other_column "price") by discriminate.
    cbn [mbind result_bind].
    destruct (has_col "attribute_set_id" df); [|reflexivity].
    cbn [mbind result_bind].
    destruct (has_col "sku" df); [|reflexivity].
    cbn [mbind result_bind].
    destruct (has_col "product_type" df); [|reflexivity].
    cbn [mbind result_bind].
    destruct (str_accessor _) as [[]|e]; [|reflexivity].
    cbn [mbind result_bind].
    destruct (has_col "price" df); [|reflexivity].
    cbn [mbind result_bind]. unfold comparable.
    destruct (existsb is_text _); reflexivity. }
  split; [|split].
  - rewrite Hshape. split.
    + intros [out E].
      destruct (has_col "qty" df) eqn:E1; [|discriminate E].
      destruct (has_col "is_in_stock" df) eqn:E2; [|discriminate E].
      destruct (has_col "attribute_set_id" df) eqn:E3; [|discriminate E].
      destruct (has_col "sku" df) eqn:E4; [|discriminate E].
      destruct (has_col "product_type" df) eqn:E5; [|discriminate E].
      destruct (str_accessor _) as [[]|e] eqn:E6; [|discriminate E].
      destruct (has_col "price" df) eqn:E7; [|discriminate E].
      destruct (existsb is_text _) eqn:E8; [discriminate E|].
      split; [|split; reflexivity].
      intros col [<-|[<-|[<-|[<-|[<-|[<-|[]]]]]]]; assumption.
    + intros (Hcols & Hacc & Hprice).
      rewrite !Hcols by (simpl; tauto). rewrite Hacc, Hprice. eexists. reflexivity.
  - intros Hq. unfold process_dataframe. rewrite series_values, Hq. reflexivity.
  - intros Hcols Hacc Hprice. rewrite Hshape.
    rewrite !Hcols by (simpl; tauto). rewrite Hacc, Hprice. reflexivity.
Qed.

Lemma process_dataframe_returns_iff_witness :
  exists out, fst (@process_dataframe plain_builtins sample_raw) = Ok out.
Proof.
  apply (proj2 (proj1 (@process_dataframe_returns_iff plain_builtins sample_raw))).
  split; [|split].
  - intros col [<-|[<-|[<-|[<-|[<-|[<-|[]]]]]]]; vm_compute; reflexivity.
  - vm_compute. reflexivity.
  - vm_compute. reflexivity.
Defined.

(** ** What the cleaned table looks like *)

Section CleanedTable.
Context `{Builtins}.

Lemma to_numeric_no_text (c : cell) : is_text (to_numeric c) = false.
Proof. destruct c as [s|q|]; simpl; [|reflexivity..]. by destruct (parse_float s). Qed.

Lemma on_col_at (cols : list string) (col : string) (f : cell -> cell)
    (r : gmap string cell) :
  col ∈ cols -> at_col col (on_col cols col f r) = f (at_col col r).
Proof.
  intros Hin. unfold on_col. rewrite (bool_decide_eq_true_2 _ Hin).
  apply at_col_insert_eq.
Qed.

Lemma format_columns (df : DataFrame) :
  columns (format_image (format_url_key (format_numeric df))) = columns df.
Proof.
  unfold format_image, format_url_key, format_numeric, numeric_cols.
  cbn [fold_left].
  destruct (rows_step (columns df) "carat_weight" to_numeric df eq_refl) as [_ C1].
  destruct (rows_step (columns df) "weight_ratti" to_numeric _ C1) as [_ C2].
  destruct (rows_step (columns df) "price" to_numeric _ C2) as [_ C3].
  destruct (rows_step (columns df) "url_key" product_url _ C3) as [_ C4].
  destruct (rows_step (columns df) "image"
              (fun c => CStr (get_magento_url c)) _ C4) as [_ C5].
  exact C5.
Qed.

Lemma process_dataframe_columns (df out : DataFrame) :
  fst (process_dataframe df) = Ok out -> columns out = columns df.
Proof.
  unfold process_dataframe.
  destruct (series "qty" df); [|discriminate].
  destruct (series "is_in_stock" _); [|discriminate]. cbn [fst].
  destruct (base_filter _) as [g|] eqn:E; [|discriminate].
  apply base_filter_inv in E. subst g.
  cbn [mbind result_bind]. intros [= <-]. rewrite format_columns. reflexivity.
Qed.

Lemma filter_map_swap {A B : Type} (p : B -> bool) (c : A -> B) (l : list A) :
  List.filter p (map c l) = map c (List.filter (fun a => p (c a)) l).
Proof.
  induction l as [|a l IH]; simpl; [reflexivity|].
  destruct (p (c a)); simpl; by rewrite IH.
Qed.

Lemma filter_sublist {A : Type} (p : A -> bool) (l : list A) :
  sublist (List.filter p l) l.
Proof.
  induction l as [|a l IH]; simpl; [constructor|].
  destruct (p a); by constructor.
Qed.

(** Every number-column cell of a formatted row is a number or missing. *)
Lemma format_row_numeric (cols : list string) (col : string)
    (r : gmap string cell) :
  In col numeric_cols -> col ∈ cols ->
  is_text (at_col col (format_row cols r)) = false.
Proof.
  intros Hin Hc. unfold format_row.
  destruct Hin as [<-|[<-|[<-|[]]]].
  - rewrite !on_col_other by discriminate.
    rewrite on_col_at by exact Hc. apply to_numeric_no_text.
  - rewrite !on_col_other by discriminate.
    rewrite on_col_at by exact Hc. apply to_numeric_no_text.
  - rewrite !on_col_other by discriminate.
    rewrite on_col_at by exact Hc. apply to_numeric_no_text.
Qed.

Lemma apply_ranges_returns (sels : list (string * (option Q * option Q)))
    (df : DataFrame) :
  (forall col sel r, In (col, sel) sels -> has_col col df = true ->
     In r (rows df) -> is_text (at_col col r) = false) ->
  exists out, apply_ranges sels df = Ok out.
Proof.
  revert df. induction sels as [|[col sel] sels IH]; intros df Hno; simpl.
  - by eexists.
  - destruct (has_col col df) eqn:Hc.
    + assert (existsb (fun c => match c with CStr _ => true | _ => false end)
                (column_values col df) = false) as ->.
      { apply not_true_is_false. intros (c & Hin & Hc')%existsb_exists.
        apply in_map_iff in Hin as (r & <- & Hr).
        specialize (Hno col sel r (or_introl eq_refl) Hc Hr).
        unfold is_text in Hno. rewrite Hno in Hc'. discriminate Hc'. }
      apply IH. intros c s r Hin Hh Hr.
      cbn [select rows] in Hr. apply filter_In in Hr as [Hr _].
      apply (Hno c s r); [by right|exact Hh|exact Hr].
    + apply IH. intros c s r Hin Hh Hr.
      apply (Hno c s r); [by right|exact Hh|exact Hr].
Qed.

End CleanedTable.

(** The cleaned table keeps the column index of the raw table, and its
    rows are, in the original order, the formatted forms of a
    subsequence of the raw rows: the cleaner drops rows, it never adds
    or reorders any. *)
Theorem process_dataframe_keeps_shape `{Builtins} (df out : DataFrame) :
  fst (process_dataframe df) = Ok out ->
  columns out = columns df
  /\ exists kept,
       sublist kept (rows df)
       /\ rows out = map (fun r => format_row (columns df) (coerce_row r)) kept.
Proof.
  intros E. split; [by apply process_dataframe_columns|].
  apply process_dataframe_inv in E.
  exists (List.filter (fun r => base_mask (coerce_row r)) (rows df)).
  split; [apply filter_sublist|].
  rewrite E, filter_map_swap, map_map. reflexivity.
Qed.

Lemma process_dataframe_keeps_shape_witness :
  columns sample_processed = columns sample_raw
  /\ exists kept,
       sublist kept (rows sample_raw)
       /\ rows sample_processed
          = map (fun r => @format_row plain_builtins (columns sample_raw)
                            (@coerce_row plain_builtins r)) kept.
Proof.
  apply (@process_dataframe_keeps_shape plain_builtins sample_raw sample_processed).
  vm_compute. reflexivity.
Defined.

(** In the cleaned table the columns [carat_weight], [weight_ratti] and
    [price] hold no text, so the range comparisons of the results
    section never raise on it: for every frame that has its column index
    and only rows of it, and every set of range selections over those
    columns, the range filter returns a frame. *)
Theorem ranges_never_raise_on_cleaned `{Builtins}
    (df out cur : DataFrame) (sels : list (string * (option Q * option Q))) :
  fst (process_dataframe df) = Ok out ->
  columns cur = columns out -> incl (rows cur) (rows out) ->
  (forall col sel, In (col, sel) sels -> In col numeric_cols) ->
  (forall r col, In r (rows out) -> In col numeric_cols -> has_col col out = true ->
     is_text (at_col col r) = false)
  /\ exists final_df, apply_ranges sels cur = Ok final_df.
Proof.
  intros E Hcols Hrows Hsels.
  pose proof (process_dataframe_columns df out E) as Hc.
  pose proof (process_dataframe_inv df out E) as Hr.
  assert (Hnum : forall r col, In r (rows out) -> In col numeric_cols ->
                   has_col col out = true -> is_text (at_col col r) = false).
  { intros r col Hin Hn Hh. rewrite Hr in Hin.
    apply in_map_iff in Hin as (r0 & <- & _).
    apply format_row_numeric; [exact Hn|].
    unfold has_col in Hh. rewrite Hc in Hh.
    by apply bool_decide_eq_true in Hh. }
  split; [exact Hnum|].
  apply apply_ranges_returns. intros col sel r Hin Hh Hr'.
  apply Hnum; [by apply Hrows|by apply (Hsels col sel)|].
  unfold has_col in *. by rewrite <- Hcols.
Qed.

Lemma ranges_never_raise_on_cleaned_witness :
  exists final_df,
    apply_ranges [("price", (Some 1000%Q, Some 5000%Q))] sample_processed
    = Ok final_df.
Proof.
  apply (@ranges_never_raise_on_cleaned plain_builtins sample_raw
           sample_processed sample_processed
           [("price", (Some 1000%Q, Some 5000%Q))]).
  - vm_compute. reflexivity.
  - reflexivity.
  - apply incl_refl.
  - intros col sel [[= <- <-]|[]]. right. right. left. reflexivity.
Defined.

(** ** The two link columns of the cleaned table *)

Section LinkColumns.
Context `{Builtins}.

Lemma get_magento_url_shape (c : cell) :
  get_magento_url c = ""
  \/ exists t, get_magento_url c = CDN_BASE ++ "/g/p/gp" ++ t.
Proof.
  unfold get_magento_url.
  destruct (isna c || eq_text c ""); [by left|]. right.
  destruct (normalized_filename_gp c) as [t ->]. exists t. reflexivity.
Qed.

Lemma lstrip_char_no_lead (ch : ascii) (s : string) :
  PyStr.startswith (String ch "") (PyStr.lstrip_char ch s) = false.
Proof.
  unfold PyStr.startswith.
  induction s as [|c s IH]; [reflexivity|]. cbn [PyStr.lstrip_char].
  destruct (Ascii.eqb_spec c ch) as [->|Hne]; [exact IH|].
  cbn [String.prefix]. destruct (ascii_dec ch c) as [->|_]; [contradiction|reflexivity].
Qed.

Lemma format_row_image (cols : list string) (r : gmap string cell) :
  "image" ∈ cols ->
  at_col "image" (format_row cols r)
  = CStr (get_magento_url
            (at_col "image"
               (on_col cols "url_key" product_url
                  (on_col cols "price" to_numeric
                     (on_col cols "weight_ratti" to_numeric
                        (on_col cols "carat_weight" to_numeric r)))))).
Proof. intros Hin. unfold format_row. by rewrite on_col_at. Qed.

Lemma format_row_url_key (cols : list string) (r : gmap string cell) :
  "url_key" ∈ cols ->
  exists c, at_col "url_key" (format_row cols r) = product_url c.
Proof.
  intros Hin. unfold format_row. rewrite on_col_other by discriminate.
  rewrite on_col_at by exact Hin. eexists. reflexivity.
Qed.

End LinkColumns.

(** Every [image] cell of the cleaned table is text: either empty (the
    stored reference was missing or empty) or an address under the
    two-level directory [g/p] of the image server whose file name
    begins with "gp". *)
Theorem cleaned_image_cells `{Builtins} (df out : DataFrame)
    (r : gmap string cell) :
  fst (process_dataframe df) = Ok out -> has_col "image" df = true ->
  In r (rows out) ->
  at_col "image" r = CStr ""
  \/ exists t, at_col "image" r = CStr (CDN_BASE ++ "/g/p/gp" ++ t).
Proof.
  intros E Hc Hin. apply process_dataframe_inv in E. rewrite E in Hin.
  apply in_map_iff in Hin as (r0 & <- & _).
  apply bool_decide_eq_true in Hc.
  rewrite (format_row_image _ _ Hc).
  destruct (get_magento_url_shape
              (at_col "image"
                 (on_col (columns df) "url_key" product_url
                    (on_col (columns df) "price" to_numeric
                       (on_col (columns df) "weight_ratti" to_numeric
                          (on_col (columns df) "carat_weight" to_numeric r0))))))
    as [->|[t ->]]; [by left|right; by exists t].
Qed.

Lemma cleaned_image_cells_witness :
  at_col "image" (nth 0 (rows sample_processed) ∅) = CStr ""
  \/ exists t, at_col "image" (nth 0 (rows sample_processed) ∅)
               = CStr (CDN_BASE ++ "/g/p/gp" ++ t).
Proof.
  apply (@cleaned_image_cells plain_builtins sample_raw sample_processed
           (nth 0 (rows sample_processed) ∅)).
  - vm_compute. reflexivity.
  - vm_compute. reflexivity.
  - apply nth_In. vm_compute. repeat constructor.
Defined.

(** Every [url_key] cell of the cleaned table is the product-page
    prefix followed by a key that does not begin with a slash: the
    address never has two slashes after "products". *)
Theorem cleaned_url_key_cells `{Builtins} (df out : DataFrame)
    (r : gmap string cell) :
  fst (process_dataframe df) = Ok out -> has_col "url_key" df = true ->
  In r (rows out) ->
  exists key,
    at_col "url_key" r = CStr ("https://www.gempundit.com/products/" ++ key)
    /\ PyStr.startswith "/" key = false.
Proof.
  intros E Hc Hin. apply process_dataframe_inv in E. rewrite E in Hin.
  apply in_map_iff in Hin as (r0 & <- & _).
  apply bool_decide_eq_true in Hc.
  destruct (format_row_url_key _ r0 Hc) as [c ->].
  unfold product_url. eexists. split; [reflexivity|].
  apply lstrip_char_no_lead.
Qed.

Lemma cleaned_url_key_cells_witness :
  exists key,
    at_col "url_key" (nth 0 (rows sample_processed) ∅)
    = CStr ("https://www.gempundit.com/products/" ++ key)
    /\ PyStr.startswith "/" key = false.
Proof.
  apply (@cleaned_url_key_cells plain_builtins sample_raw sample_processed
           (nth 0 (rows sample_processed) ∅)).
  - vm_compute. reflexivity.
  - vm_compute. reflexivity.
  - apply nth_In. vm_compute. repeat constructor.
Defined.

(** ** The cascading filters, further *)

Lemma mask_streamlit_fold (c : cell) (val : list string) (acc : bool) :
  fold_left
    (fun mask v =>
       if String.eqb v "None" then mask || (isna c || eq_text c "None")
       else mask || eq_text c v)
    val acc
  = acc || existsb (fun v => if String.eqb v "None"
                             then isna c || eq_text c "None"
                             else eq_text c v) val.
Proof.
  revert acc. induction val as [|v val IH]; intros acc;
    cbn [fold_left existsb].
  - by rewrite orb_false_r.
  - rewrite IH. destruct (String.eqb v "None"); symmetry; apply orb_assoc.
Qed.

(** In the second dashboard a selection keeps a row exactly when the
    text of its cell is among the selected values, or its cell is
    missing and the placeholder "None" is selected; a cell that holds a
    number is never kept, since it is compared with strings. *)
Theorem mask_streamlit_matches (val : list string) (c : cell) :
  mask_streamlit val c = true
  <-> match c with
      | CStr s => In s val
      | CNaN => In "None" val
      | CNum _ => False
      end.
Proof.
  unfold mask_streamlit. rewrite mask_streamlit_fold. cbn [orb].
  rewrite existsb_exists. destruct c as [s|q|]; simpl.
  - split.
    + intros (v & Hin & Hv). destruct (String.eqb_spec v "None") as [->|_];
        apply String.eqb_eq in Hv; by subst.
    + intros Hin. exists s. split; [exact Hin|].
      destruct (String.eqb_spec s "None") as [->|_];
        [reflexivity|apply String.eqb_refl].
  - split; [|intros []]. intros (v & _ & Hv). by destruct (String.eqb v "None").
  - split.
    + intros (v & Hin & Hv).
      destruct (String.eqb_spec v "None") as [->|_]; [exact Hin|discriminate Hv].
    + intros Hin. exists "None". split; [exact Hin|reflexivity].
Qed.

Lemma insert_sorted_Sorted (x : string) (l : list string) :
  Sorted leb_order l -> Sorted leb_order (insert_sorted x l).
Proof.
  induction l as [|y l IH]; intros Hs; simpl.
  - repeat constructor.
  - destruct (String.leb x y) eqn:E.
    + constructor; [exact Hs|]. constructor. exact E.
    + inversion Hs as [|? ? Hs' Hhd]; subst.
      constructor; [by apply IH|].
      assert (Hyx : leb_order y x).
      { unfold leb_order. destruct (String.leb_total x y); congruence. }
      destruct l as [|z l]; simpl; [by constructor|].
      destruct (String.leb x z); constructor; [exact Hyx|].
      by inversion Hhd.
Qed.

Lemma sorted_Sorted (l : list string) : Sorted leb_order (sorted l).
Proof.
  induction l as [|x l IH]; simpl; [constructor|].
  by apply insert_sorted_Sorted.
Qed.

Lemma insert_sorted_perm (x : string) (l : list string) :
  Permutation (x :: l) (insert_sorted x l).
Proof.
  induction l as [|y l IH]; simpl; [reflexivity|].
  destruct (String.leb x y); [reflexivity|].
  rewrite perm_swap. by constructor.
Qed.

Lemma sorted_perm (l : list string) : Permutation l (sorted l).
Proof.
  induction l as [|x l IH]; simpl; [reflexivity|].
  rewrite <- insert_sorted_perm. by constructor.
Qed.

Lemma unique_by_NoDup (l : list string) : NoDup (unique_by String.eqb l).
Proof.
  unfold unique_by.
  assert (Hgen : forall acc, NoDup acc ->
            NoDup
              (fold_left
                 (fun acc c => if existsb (String.eqb c) acc then acc
                               else (acc ++ [c])%list) l acc)).
  { induction l as [|c l IH]; intros acc Hacc; simpl; [exact Hacc|].
    apply IH. destruct (existsb (String.eqb c) acc) eqn:E; [exact Hacc|].
    apply NoDup_app. split; [exact Hacc|]. split; [|apply NoDup_singleton].
    intros x Hx Hc. apply list_elem_of_singleton in Hc. subst x.
    assert (existsb (String.eqb c) acc = true); [|congruence].
    apply existsb_exists. exists c.
    split; [by apply list_elem_of_In|apply String.eqb_refl]. }
  apply Hgen. constructor.
Qed.

(** The option lists handed to the widgets are in ascending order in
    both dashboards, and in the second dashboard no option occurs
    twice. *)
Theorem options_sorted `{Builtins} (col_name : string) (df : DataFrame) :
  Sorted leb_order (options_app col_name df)
  /\ Sorted leb_order (options_streamlit col_name df)
  /\ NoDup (options_streamlit col_name df).
Proof.
  split; [apply sorted_Sorted|]. split; [apply sorted_Sorted|].
  unfold options_streamlit. rewrite <- sorted_perm. apply unique_by_NoDup.
Qed.

Section CascadeShape.
Variable w : gmap string (list string).
Variable options_for : string -> DataFrame -> list string.
Variable keep : list string -> cell -> bool.

Lemma cascade_step_sublist (st : cascade) (entry : string * string) :
  sublist (rows (current_df (cascade_step w options_for keep st entry)))
          (rows (current_df st)).
Proof.
  unfold cascade_step. destruct (has_col _ _); [|reflexivity].
  destruct (multiselect w _); [reflexivity|]. apply filter_sublist.
Qed.

Lemma cascade_fold_sublist (order : list (string * string)) (st : cascade) :
  sublist (rows (current_df (fold_left (cascade_step w options_for keep) order st)))
          (rows (current_df st)).
Proof.
  revert st. induction order as [|entry order IH]; intros st; simpl;
    [reflexivity|].
  etransitivity; [apply IH|apply cascade_step_sublist].
Qed.

Lemma cascade_step_selected (st : cascade) (entry : string * string)
    (col : string) :
  selected_filters (cascade_step w options_for keep st entry) !! col
  = if decide (fst entry = col) then
      if has_col col (current_df st) then
        match multiselect w ("filter_" ++ col) with
        | [] => selected_filters st !! col
        | val => Some val
        end
      else selected_filters st !! col
    else selected_filters st !! col.
Proof.
  unfold cascade_step. case_decide as Hd.
  - subst col. destruct (has_col _ _); [|reflexivity].
    destruct (multiselect w _); [reflexivity|]. cbn [selected_filters].
    apply lookup_insert_eq.
  - destruct (has_col _ _); [|reflexivity].
    destruct (multiselect w _); [reflexivity|]. cbn [selected_filters].
    by apply lookup_insert_ne.
Qed.

(** Steps for other columns leave the selection recorded for a column. *)
Lemma cascade_fold_selected_other (order : list (string * string))
    (st : cascade) (col : string) :
  Forall (fun entry => fst entry <> col) order ->
  selected_filters (fold_left (cascade_step w options_for keep) order st) !! col
  = selected_filters st !! col.
Proof.
  revert st. induction order as [|entry order IH]; intros st Hall; simpl;
    [reflexivity|].
  inversion Hall as [|? ? Hne Hrest]; subst.
  rewrite IH by exact Hrest. rewrite cascade_step_selected.
  case_decide; [contradiction|reflexivity].
Qed.

(** Whatever is recorded is a non-empty selection. *)
Lemma cascade_fold_selected_nonempty (order : list (string * string))
    (st : cascade) :
  (forall col, selected_filters st !! col <> Some []) ->
  forall col,
    selected_filters (fold_left (cascade_step w options_for keep) order st) !! col
    <> Some [].
Proof.
  revert st. induction order as [|entry order IH]; intros st Hst; simpl;
    [exact Hst|].
  apply IH. intros col. rewrite cascade_step_selected.
  case_decide; [|apply Hst]. destruct (has_col _ _); [|apply Hst].
  destruct (multiselect w _); [apply Hst|discriminate].
Qed.

End CascadeShape.

(** In both dashboards the frame the cascade ends with has the column
    index of the cleaned table and a subsequence of its rows, in order;
    and the selections it records are never empty. *)
Theorem cascade_narrows `{Builtins} (widgets : gmap string (list string))
    (df_processed : DataFrame) :
  (columns (current_df (cascade_app widgets df_processed)) = columns df_processed
   /\ sublist (rows (current_df (cascade_app widgets df_processed)))
              (rows df_processed)
   /\ forall col,
        selected_filters (cascade_app widgets df_processed) !! col <> Some [])
  /\ (columns (current_df (cascade_streamlit widgets df_processed))
      = columns df_processed
      /\ sublist (rows (current_df (cascade_streamlit widgets df_processed)))
                 (rows df_processed)
      /\ forall col,
           selected_filters (cascade_streamlit widgets df_processed) !! col
           <> Some []).
Proof.
  split; (split; [|split]).
  - apply cascade_app_columns.
  - apply (cascade_fold_sublist widgets options_app isin filter_order_app
             (cascade_init df_processed)).
  - apply (cascade_fold_selected_nonempty widgets options_app isin
             filter_order_app (cascade_init df_processed)).
    intros col. cbn [cascade_init selected_filters]. rewrite lookup_empty.
    discriminate.
  - apply cascade_streamlit_columns.
  - apply (cascade_fold_sublist widgets options_streamlit mask_streamlit
             filter_order_streamlit (cascade_init df_processed)).
  - apply (cascade_fold_selected_nonempty widgets options_streamlit
             mask_streamlit filter_order_streamlit (cascade_init df_processed)).
    intros col. cbn [cascade_init selected_filters]. rewrite lookup_empty.
    discriminate.
Qed.

Lemma fold_left_cons {A B : Type} (f : A -> B -> A) (b : B) (l : list B) (a : A) :
  fold_left f (b :: l) a = fold_left f l (f a b).
Proof. reflexivity. Qed.

Lemma gemstone_selection `{Builtins} (widgets : gmap string (list string))
    (df_processed : DataFrame) :
  selected_filters (cascade_streamlit widgets df_processed) !! "gemstone"
  = if has_col "gemstone" df_processed then
      match multiselect widgets "filter_gemstone" with
      | [] => None
      | val => Some val
      end
    else None.
Proof.
  unfold cascade_streamlit, step_streamlit, filter_order_streamlit.
  rewrite fold_left_cons.
  rewrite cascade_fold_selected_other
    by (repeat constructor; cbn [fst]; discriminate).
  rewrite cascade_step_selected. cbn [fst cascade_init current_df selected_filters].
  rewrite decide_True by reflexivity. rewrite lookup_empty.
  destruct (has_col "gemstone" df_processed); [|reflexivity].
  change ("filter_" ++ "gemstone") with "filter_gemstone".
  by destruct (multiselect widgets "filter_gemstone").
Qed.

(** The second dashboard shows a report only behind a gemstone
    selection: when the range widgets have been set up, the run ends
    with the warning instead of a report exactly when the cleaned table
    has no [gemstone] column or nothing is selected for it. *)
Theorem gemstone_required `{Builtins} (widgets : gmap string (list string))
    (ss ss1 : gmap string value) (df_processed : DataFrame)
    (ws : list (string * range_widget)) :
  Streamlit.range_loop df_processed Streamlit.numeric_filters ss = Ok (ss1, ws) ->
  streamlit_report widgets ss df_processed = Ok (None, ws)
  <-> has_col "gemstone" df_processed = false
      \/ multiselect widgets "filter_gemstone" = [].
Proof.
  intros L. unfold streamlit_report. rewrite L. cbn [mbind result_bind].
  rewrite gemstone_selection.
  generalize (current_df (cascade_streamlit widgets df_processed)). intros cur.
  destruct (has_col "gemstone" df_processed).
  - destruct (multiselect widgets "filter_gemstone") as [|v val].
    + split; [intros _; by right|reflexivity].
    + split.
      * intros E. destruct (apply_ranges (selections ws) cur);
          cbn [mbind result_bind] in E; discriminate E.
      * intros [Hc|Hv]; discriminate.
  - split; [intros _; by left|reflexivity].
Qed.

Lemma gemstone_required_witness :
  @streamlit_report plain_builtins ∅ ∅ sample_processed
  = Ok (None, snd sample_streamlit_ranges).
Proof.
  assert (L : Streamlit.range_loop sample_processed Streamlit.numeric_filters ∅
              = Ok (fst sample_streamlit_ranges, snd sample_streamlit_ranges)).
  { vm_compute. reflexivity. }
  apply (proj2 (@gemstone_required plain_builtins ∅ ∅ _ _ _ L)).
  right. vm_compute. reflexivity.
Defined.

(** ** Range bounds and range selections, further *)

Section ExtremumDefined.
Variable pick : Q -> Q -> bool.

Lemma extremum_from_some (l : list cell) (a : Q) :
  exists m,
    fold_left
      (fun acc c =>
         match c, acc with
         | CNum q, Some m => Some (if pick q m then q else m)
         | CNum q, None => Some q
         | _, _ => acc
         end) l (Some a) = Some m.
Proof.
  revert a. induction l as [|c l IH]; intros a; simpl; [by exists a|].
  destruct c as [s|q|]; apply IH.
Qed.

Lemma extremum_from_none (l : list cell) :
  (exists q, In (CNum q) l)
  \/ fold_left
       (fun acc c =>
          match c, acc with
          | CNum q, Some m => Some (if pick q m then q else m)
          | CNum q, None => Some q
          | _, _ => acc
          end) l None = None
     /\ forall q, ~ In (CNum q) l.
Proof.
  induction l as [|c l IH]; simpl.
  - right. split; [reflexivity|]. intros q [].
  - destruct c as [s|q|].
    + destruct IH as [[q Hq]|[E Hno]]; [left; exists q; by right|].
      right. split; [exact E|]. intros q [Hc|Hin]; [discriminate Hc|].
      exact (Hno q Hin).
    + left. exists q. by left.
    + destruct IH as [[q Hq]|[E Hno]]; [left; exists q; by right|].
      right. split; [exact E|]. intros q [Hc|Hin]; [discriminate Hc|].
      exact (Hno q Hin).
Qed.

Lemma extremum_defined (l : list cell) (q : Q) :
  In (CNum q) l ->
  exists m,
    fold_left
      (fun acc c =>
         match c, acc with
         | CNum q, Some m => Some (if pick q m then q else m)
         | CNum q, None => Some q
         | _, _ => acc
         end) l None = Some m.
Proof.
  induction l as [|c l IH]; simpl; [intros []|].
  intros [->|Hin].
  - apply extremum_from_some.
  - destruct c as [s|q'|]; [by apply IH|apply extremum_from_some|by apply IH].
Qed.

End ExtremumDefined.

Lemma series_min_defined (l : list cell) (q : Q) :
  In (CNum q) l -> exists m, series_min l = Some m.
Proof. apply (extremum_defined (fun q m => Qlt_bool q m)). Qed.

Lemma series_max_defined (l : list cell) (q : Q) :
  In (CNum q) l -> exists m, series_max l = Some m.
Proof. apply (extremum_defined (fun q m => Qlt_bool m q)). Qed.

Lemma series_undefined (l : list cell) :
  (forall q, ~ In (CNum q) l) -> series_min l = None /\ series_max l = None.
Proof.
  intros Hno. split.
  - destruct (extremum_from_none (fun q m => Qlt_bool q m) l)
      as [[q Hq]|[E _]]; [by destruct (Hno q)|exact E].
  - destruct (extremum_from_none (fun q m => Qlt_bool m q) l)
      as [[q Hq]|[E _]]; [by destruct (Hno q)|exact E].
Qed.

(** The bounds of a range widget.  In the first dashboard they are
    always two numbers with min <= max, and 0 and 1 when the column
    holds no number.  In the second dashboard a column that holds a
    number gets two numbers with min < max (a column without spread is
    widened to 0 .. max(1, value)), and a column without a number gets
    no bounds at all ([nan], [nan]). *)
Theorem range_bounds_ordered (df_processed : DataFrame) (col : string) :
  (exists a b, App.global_bounds df_processed col = (Some a, Some b)
               /\ (a <= b)%Q)
  /\ ((exists r q, In r (rows df_processed) /\ at_col col r = CNum q) ->
      exists a b, Streamlit.data_bounds df_processed col = (Some a, Some b)
                  /\ (a < b)%Q)
  /\ ((forall r q, In r (rows df_processed) -> at_col col r <> CNum q) ->
      App.global_bounds df_processed col = (Some 0%Q, Some 1%Q)
      /\ Streamlit.data_bounds df_processed col = (None, None)).
Proof.
  assert (Hnum : (exists r q, In r (rows df_processed) /\ at_col col r = CNum q) ->
                 exists m M,
                   series_min (column_values col df_processed) = Some m
                   /\ series_max (column_values col df_processed) = Some M
                   /\ (m <= M)%Q).
  { intros (r & q & Hr & Hq).
    assert (Hin : In (CNum q) (column_values col df_processed)).
    { rewrite <- Hq. unfold column_values. by apply in_map. }
    destruct (series_min_defined _ q Hin) as [m Hm].
    destruct (series_max_defined _ q Hin) as [M HM].
    exists m, M. split; [exact Hm|]. split; [exact HM|].
    destruct (series_min_spec col df_processed m Hm) as [_ Hlow].
    destruct (series_max_spec col df_processed M HM) as [_ Hhigh].
    apply Qle_trans with q; [exact (Hlow r q Hr Hq)|exact (Hhigh r q Hr Hq)]. }
  assert (Hnone : (forall r q, In r (rows df_processed) -> at_col col r <> CNum q) ->
                  series_min (column_values col df_processed) = None
                  /\ series_max (column_values col df_processed) = None).
  { intros Hno. apply series_undefined. intros q Hin.
    apply in_map_iff in Hin as (r & Hq & Hr). exact (Hno r q Hr Hq). }
  split; [|split].
  - destruct (extremum_from_none (fun q m => Qlt_bool q m)
                (column_values col df_processed)) as [[q Hq]|[_ Hno]].
    + apply in_map_iff in Hq as (r & Hq & Hr).
      destruct (Hnum (ex_intro _ r (ex_intro _ q (conj Hr Hq))))
        as (m & M & Hm & HM & Hle).
      exists m, M. split; [|exact Hle].
      unfold App.global_bounds. rewrite Hm, HM. reflexivity.
    + exists 0%Q, 1%Q. split; [|discriminate].
      destruct (series_undefined _ Hno) as [Hm HM].
      unfold App.global_bounds. rewrite Hm, HM. reflexivity.
  - intros Hex. destruct (Hnum Hex) as (m & M & Hm & HM & Hle).
    unfold Streamlit.data_bounds. rewrite Hm, HM. unfold flt_eq.
    destruct (Qeq_bool m M) eqn:E.
    + unfold py_max, flt_gt. destruct (Qlt_bool 1 M) eqn:G.
      * exists 0%Q, M. split; [reflexivity|].
        apply Qlt_bool_iff in G. lra.
      * exists 0%Q, 1%Q. split; [reflexivity|]. lra.
    + exists m, M. split; [reflexivity|].
      apply Qle_lt_or_eq in Hle as [Hlt|Heq]; [exact Hlt|].
      apply Qeq_bool_iff in Heq. congruence.
  - intros Hno. destruct (Hnone Hno) as [Hm HM].
    unfold App.global_bounds, Streamlit.data_bounds. rewrite Hm, HM.
    split; reflexivity.
Qed.

Lemma range_bounds_ordered_witness :
  exists a b, Streamlit.data_bounds sample_processed "price" = (Some a, Some b)
              /\ (a < b)%Q.
Proof.
  apply (proj1 (proj2 (range_bounds_ordered sample_processed "price"))).
  exists (nth 0 (rows sample_processed) ∅), 1000%Q.
  split; [apply nth_In; vm_compute; repeat constructor|vm_compute; reflexivity].
Defined.





(** ** Pages *)

Lemma page_slice_chunk {A : Type} (i : nat) (items : list A) :
  page_slice (Z.of_nat (S i)) items = take 48 (drop (i * 48) items).
Proof.
  unfold page_slice, ITEMS_PER_PAGE.
  replace (Z.to_nat ((Z.of_nat (S i) - 1) * 48)) with (i * 48)%nat by lia.
  replace (Z.to_nat ((Z.of_nat (S i) - 1) * 48 + 48) - i * 48)%nat
    with 48%nat by lia.
  reflexivity.
Qed.

Lemma chunks_concat {A : Type} (k : nat) (items : list A) :
  concat (map (fun i => take 48 (drop (i * 48) items)) (seq 0 k))
  = take (k * 48) items.
Proof.
  induction k as [|k IH]; [reflexivity|].
  rewrite seq_S, map_app, concat_app, IH. cbn [map concat plus].
  rewrite app_nil_r, take_take_drop. f_equal. lia.
Qed.

(** The pages of the grid cut the result into consecutive pieces: a page
    holds at most 48 items, the pages 1 to [total_pages] put one after
    the other give back the whole result, and every page of a non-empty
    result in that range shows at least one item. *)
Theorem pages_partition {A : Type} (items : list A) :
  (forall p, (1 <= p)%Z -> length (page_slice p items) <= 48)
  /\ concat (map (fun i => page_slice (Z.of_nat (S i)) items)
               (seq 0 (Z.to_nat (total_pages (Z.of_nat (length items))))))
     = items
  /\ (forall p, (1 <= p <= total_pages (Z.of_nat (length items)))%Z ->
        items <> [] -> page_slice p items <> []).
Proof.
  assert (Htp : (Z.of_nat (length items)
                 <= total_pages (Z.of_nat (length items)) * 48)%Z
                /\ ((0 < Z.of_nat (length items))%Z ->
                    ((total_pages (Z.of_nat (length items)) - 1) * 48
                     < Z.of_nat (length items))%Z)).
  { unfold total_pages, ITEMS_PER_PAGE.
    pose proof (Z.div_mod (Z.of_nat (length items) + 48 - 1) 48 ltac:(lia)).
    pose proof (Z.mod_pos_bound (Z.of_nat (length items) + 48 - 1) 48 ltac:(lia)).
    lia. }
  destruct Htp as [Hcover Hlast].
  split; [|split].
  - intros p Hp. replace p with (Z.of_nat (S (Z.to_nat (p - 1)))) by lia.
    rewrite page_slice_chunk, length_take. lia.
  - rewrite (map_ext _ (fun i => take 48 (drop (i * 48) items)))
      by (intros i; apply page_slice_chunk).
    rewrite chunks_concat. apply take_ge. lia.
  - intros p Hp Hne.
    assert (0 < length items) by (destruct items; [congruence|simpl; lia]).
    replace p with (Z.of_nat (S (Z.to_nat (p - 1)))) by lia.
    rewrite page_slice_chunk. intros E.
    apply (f_equal length) in E. rewrite length_take, length_drop in E.
    cbn [length] in E. specialize (Hlast ltac:(lia)). lia.
Qed.

Lemma pages_partition_witness :
  page_slice 3 (seq 0 100) <> [].
Proof.
  apply (proj2 (proj2 (pages_partition (seq 0 100)))).
  - vm_compute. split; discriminate.
  - discriminate.
Defined.

Lemma interaction_next (n p : Z) (ss : gmap string value) :
  ss !! "show_results" = Some (VBool true) ->
  ss !! "current_page" = Some (VInt p) ->
  (1 <= p < total_pages n)%Z ->
  interaction true n ClickNext ss
  = Ok (<["current_page" := VInt (p + 1)]> ss).
Proof.
  intros Hshow Hp Hr. unfold interaction, run.
  cbn [apply_filters button negb andb]. rewrite Hshow.
  assert (G : grid_view n ClickNext ss
              = Ok (<["current_page" := VInt (p + 1)]> ss, Rerun)).
  { unfold grid_view. rewrite Hp. cbn zeta. rewrite Hp.
    assert ((p >? total_pages n)%Z = false) as -> by lia.
    rewrite Hp. unfold button.
    assert ((p =? total_pages n)%Z = false) as -> by lia.
    cbn. by rewrite andb_false_r. }
  rewrite G. cbn [mbind result_bind apply_filters button negb andb].
  rewrite lookup_insert_ne by discriminate. rewrite Hshow.
  destruct (grid_view_disabled n (<["current_page" := VInt (p + 1)]> ss) (p + 1))
    as (_ & _ & ->); [apply lookup_insert_eq|lia|]. reflexivity.
Qed.

Lemma interaction_previous (n p : Z) (ss : gmap string value) :
  ss !! "show_results" = Some (VBool true) ->
  ss !! "current_page" = Some (VInt p) ->
  (1 < p <= total_pages n)%Z ->
  interaction true n ClickPrevious ss
  = Ok (<["current_page" := VInt (p - 1)]> ss).
Proof.
  intros Hshow Hp Hr. unfold interaction, run.
  cbn [apply_filters button negb andb]. rewrite Hshow.
  assert (G : grid_view n ClickPrevious ss
              = Ok (<["current_page" := VInt (p - 1)]> ss, Rerun)).
  { unfold grid_view. rewrite Hp. cbn zeta. rewrite Hp.
    assert ((p >? total_pages n)%Z = false) as -> by lia.
    rewrite Hp. unfold button.
    assert ((p =? 1)%Z = false) as -> by lia. reflexivity. }
  rewrite G. cbn [mbind result_bind apply_filters button negb andb].
  rewrite lookup_insert_ne by discriminate. rewrite Hshow.
  destruct (grid_view_disabled n (<["current_page" := VInt (p - 1)]> ss) (p - 1))
    as (_ & _ & ->); [apply lookup_insert_eq|lia|]. reflexivity.
Qed.

(** With results shown in grid mode, Next on a page before the last one
    moves to the following page, Previous on a page after the first one
    moves to the preceding page, and Next followed by Previous comes
    back to the page it started from; nothing else of the session
    changes. *)
Theorem page_navigation (n p : Z) (ss : gmap string value) :
  ss !! "show_results" = Some (VBool true) ->
  ss !! "current_page" = Some (VInt p) ->
  ((1 <= p < total_pages n)%Z ->
   interaction true n ClickNext ss = Ok (<["current_page" := VInt (p + 1)]> ss)
   /\ (x ← interaction true n ClickNext ss; interaction true n ClickPrevious x)
      = Ok ss)
  /\ ((1 < p <= total_pages n)%Z ->
      interaction true n ClickPrevious ss
      = Ok (<["current_page" := VInt (p - 1)]> ss)).
Proof.
  intros Hshow Hp. split.
  - intros Hr. rewrite (interaction_next n p ss Hshow Hp Hr).
    split; [reflexivity|]. cbn [mbind result_bind].
    rewrite (interaction_previous n (p + 1)); cycle 1.
    + rewrite lookup_insert_ne by discriminate. exact Hshow.
    + apply lookup_insert_eq.
    + lia.
    + f_equal. rewrite insert_insert_eq.
      replace (p + 1 - 1)%Z with p by lia. by apply insert_id.
  - intros Hr. by apply interaction_previous.
Qed.

Lemma page_navigation_witness :
  interaction true 100 ClickPrevious grid_session
  = Ok (<["current_page" := VInt (3 - 1)]> grid_session).
Proof.
  apply (proj2 (page_navigation 100 3 grid_session eq_refl eq_refl)).
  vm_compute. split; [reflexivity|discriminate].
Defined.

(** ** Sorting and display, further *)

Lemma sorted_missing_last (by_col : string) (ascending : bool)
    (l : list (gmap string cell)) (r : gmap string cell) :
  Sorted (in_order by_col ascending) (r :: l) ->
  at_col by_col r = CNaN ->
  Forall (fun r' => at_col by_col r' = CNaN) l.
Proof.
  revert r. induction l as [|r' l IH]; intros r Hs Hr; [constructor|].
  inversion Hs as [|? ? Hs' Hhd]; subst.
  inversion Hhd as [|? ? Hrel]; subst.
  unfold in_order in Hrel. rewrite Hr in Hrel.
  assert (Hr' : at_col by_col r' = CNaN).
  { destruct (at_col by_col r'); [discriminate Hrel..|reflexivity]. }
  constructor; [exact Hr'|]. by apply (IH r').
Qed.

(** [sort_values] puts the rows with a missing sort key last, in
    ascending and in descending order alike: in its result, every row
    after a row with a missing key has a missing key too. *)
Theorem sort_values_missing_last (by_col : string) (ascending : bool)
    (df out : DataFrame) (before after : list (gmap string cell))
    (r : gmap string cell) :
  sort_values by_col ascending df = Ok out ->
  rows out = (before ++ r :: after)%list ->
  at_col by_col r = CNaN ->
  Forall (fun r' => at_col by_col r' = CNaN) after.
Proof.
  intros E Hsplit Hr. apply sort_values_inv in E as [_ Hrows].
  pose proof (sort_rows_sorted by_col ascending (rows df)) as Hs.
  rewrite <- Hrows, Hsplit in Hs. clear Hrows Hsplit.
  induction before as [|b before IH]; simpl in Hs.
  - by apply (sorted_missing_last by_col ascending after r).
  - apply IH. by inversion Hs.
Qed.

Lemma sort_values_missing_last_witness :
  Forall (fun r' => at_col "shape" r' = CNaN)
    [({["sku" := CStr "B"]} : gmap string cell)].
Proof.
  apply (sort_values_missing_last "shape" false
           {| columns := ["sku"; "shape"];
              rows := [{["sku" := CStr "A"]}; {["sku" := CStr "B"]};
                       {["sku" := CStr "C"; "shape" := CStr "Oval"]}] |}
           {| columns := ["sku"; "shape"];
              rows := [{["sku" := CStr "C"; "shape" := CStr "Oval"]};
                       {["sku" := CStr "A"]}; {["sku" := CStr "B"]}] |}
           [{["sku" := CStr "C"; "shape" := CStr "Oval"]}]
           [{["sku" := CStr "B"]}]
           {["sku" := CStr "A"]}).
  - vm_compute. reflexivity.
  - reflexivity.
  - vm_compute. reflexivity.
Defined.



(** ** A first run of the first dashboard: untouched range widgets *)

Lemma append_inj (p a b : string) : p ++ a = p ++ b -> a = b.
Proof.
  induction p as [|c p IH]; simpl; [exact id|].
  intros [= E]. by apply IH.
Qed.







(** ** The report script against the dashboards *)

(** For one and the same stored image reference the report script and
    the dashboards never produce the same address: the script puts the
    reference, stripped of leading slashes, directly behind the base
    (also when the reference is missing), the dashboards give the empty
    string or continue the base with "/g/p/gp". *)
Theorem report_image_differs `{Builtins} (c : cell) :
  report_image c <> CStr (get_magento_url c)
  /\ exists key,
       report_image c = CStr (CDN_BASE ++ key)
       /\ PyStr.startswith "/" key = false.
Proof.
  split.
  - unfold report_image. intros [= E].
    destruct (get_magento_url_shape c) as [E0|[t Et]].
    + rewrite E0 in E. discriminate E.
    + rewrite Et in E. apply append_inj in E.
      pose proof (lstrip_char_no_lead "/" (py_str (fillna "" c))) as Hno.
      rewrite E in Hno. discriminate Hno.
  - eexists. split; [reflexivity|]. apply lstrip_char_no_lead.
Qed.
